(** * Order lifecycle tracker (examples/13_order_lifecycle_tracker_with_stream.py)

    A shallow embedding of the stream callback [handle_tracked_order_update]
    and of the monitor / cancel / confirm part of
    [run_order_lifecycle_example], followed by the properties of the
    lifecycle specification that can be settled on them, and by further
    properties of the callback, of the session, of its interrupt clause,
    of the base price and of the command line check. *)

From Stdlib Require Import ZArith Ascii Floats.SpecFloat.
From stdpp Require Import gmap strings list.

Local Open Scope Z_scope.
Local Set Warnings "-register-all".

(** ** Python values carried by a stream event

    The event payload is a decoded JSON object, so a field holds [None], a
    bool, an int, a float, a string, a list or a nested object.  Floats are
    the IEEE values of [spec_float]; their numeric value is exact. *)

Inductive pyval : Type :=
| PyNone
| PyBool (b : bool)
| PyInt (z : Z)
| PyFloat (f : spec_float)
| PyStr (s : string)
| PyList (items : list pyval)
| PyDict (items : list (string * pyval)).

(** [hash(v)] succeeds for the scalar values and raises [TypeError] for a
    list or a dict. *)
Definition hashable (v : pyval) : bool :=
  match v with
  | PyList _ | PyDict _ => false
  | _ => true
  end.

(** The integer a float is numerically equal to, if there is one.  A finite
    float is [(-1)^s * m * 2^e]; infinities and NaN equal no integer. *)
Definition float_as_int (f : spec_float) : option Z :=
  match f with
  | S754_zero _ => Some 0
  | S754_finite s m e =>
      let sgn := if s then -1 else 1 in
      if 0 <=? e then Some (sgn * (Z.pos m * 2 ^ e))
      else if Z.pos m mod 2 ^ (- e) =? 0 then Some (sgn * (Z.pos m / 2 ^ (- e)))
      else None
  | _ => None
  end.

(** The integer a value compares equal to under Python's [==]:
    [True == 1], [False == 0], [2.0 == 2]; no string, list, dict or [None]
    equals an int. *)
Definition py_as_int (v : pyval) : option Z :=
  match v with
  | PyBool b => Some (if b then 1 else 0)
  | PyInt z => Some z
  | PyFloat f => float_as_int f
  | _ => None
  end.

(** [v == n] for an int [n]. *)
Definition py_eq_int (v : pyval) (n : Z) : bool :=
  bool_decide (py_as_int v = Some n).

(** [v == t] for [t : Optional[int]]. *)
Definition py_eq_opt_int (v : pyval) (t : option Z) : bool :=
  match t with
  | Some n => py_eq_int v n
  | None => match v with PyNone => true | _ => false end
  end.

(** [d.get(key)]: the value, or [None] when the key is absent. *)
Definition dict_get (d : gmap string pyval) (key : string) : pyval :=
  default PyNone (d !! key).

(** ** Module state and log records *)

Record tracker : Type := Tracker {
  tracked_order_id : option Z;
  tracked_order_status_from_stream : pyval;
  tracked_order_details_from_stream : option (gmap string pyval);
  is_order_terminal : bool
}.

(** The module-level initial values (lines 38-41). *)
Definition initial_tracker : tracker :=
  {| tracked_order_id := None;
     tracked_order_status_from_stream := PyNone;
     tracked_order_details_from_stream := None;
     is_order_terminal := false |}.

Inductive exn : Type := TypeError.

Inductive levelname : Type := DEBUG | INFO | WARNING | ERROR.

(** [status_str] of the handler: a name of the status table, or
    [f"UNKNOWN_STATUS({status_code})"]. *)
Inductive status_text : Type :=
| StatusName (name : string)
| UnknownStatus (code : pyval).

(** One constructor per logging call of the embedded code, carrying the
    values its f-string interpolates. *)
Inductive message : Type :=
| TrackedOrderUpdate (id : option Z)
| NewStatus (status_str : status_text) (code : pyval)
| Quantities (cum_quantity leaves_quantity : pyval)
| AvgPx (avg_px : pyval)
| FullData (order_data : gmap string pyval)
| ReachedTerminal (id : option Z) (status_str : status_text)
| NonTrackedUpdate (id : pyval)
| PlaceFailed
| OrderPlaced (id : option Z)
| TerminalBeforeCancel (id : option Z)
| Monitoring (id : option Z) (status_str : string)
| AttemptCancel (id : option Z)
| CancelSubmitted (id : option Z)
| CancelConfirmed (id : option Z)
| TerminalDuringCancel (id : option Z) (status_str : option string)
| CancelConfirmTimedOut (id : option Z) (status_str : string)
| CancelFailed (id : option Z)
| AlreadyTerminal (status_str : option string)
| FinalDetailsHeader
| FinalDetails (order_data : gmap string pyval)
| NoStreamUpdates
| UnexpectedError (e : exn)
| StoppingStream
| ExampleFinished.

Record log_record : Type := LogRecord { level : levelname; msg : message }.

Definition is_problem (r : log_record) : bool :=
  match level r with
  | WARNING | ERROR => true
  | _ => false
  end.

(** ** The schedule and the world of the main thread

    The main thread shares the module state with the stream thread.  It is
    modelled against a schedule: each time the main thread blocks
    ([time.sleep], the cancel request) the next [tick] of the schedule says
    how much longer than asked the call took and which events the stream
    thread delivered meanwhile.  Time is the reading of [time.monotonic()],
    in nanoseconds, and advances only while the main thread is blocked.
    [cancel_requests] records the order ids passed to
    [order_placer.cancel_order]. *)

Record tick : Type := Tick {
  overrun : N;
  arrivals : list (gmap string pyval)
}.

Record world : Type := World {
  globals : tracker;
  monotonic : Z;
  schedule : list tick;
  logged : list log_record;
  cancel_requests : list (option Z)
}.

Inductive outcome (A : Type) : Type :=
| Returned (a : A)
| Raised (e : exn)
| OutOfFuel.
Arguments Returned {A} a.
Arguments Raised {A} e.
Arguments OutOfFuel {A}.

(** ** The command line check and the base price

    [contract_id] is a [str] or [None], [account_id] an [int] or [None]
    (the defaults of the configuration may be unset).  The test of line 242
    is [not contract_id or not account_id or account_id <= 0], evaluated
    left to right; [None <= 0] raises [TypeError]. *)

Definition str_falsy (s : option string) : bool :=
  match s with
  | None => true
  | Some s => bool_decide (s = ""%string)
  end.

Definition int_falsy (n : option Z) : bool :=
  match n with
  | None => true
  | Some n => n =? 0
  end.

Definition py_le_zero (n : option Z) : exn + bool :=
  match n with
  | None => inl TypeError
  | Some n => inr (n <=? 0)
  end.

(** Line 242: [inr true] when the arguments are refused ([sys.exit(1)]),
    [inr false] when the run starts. *)
Definition arguments_refused (contract_id : option string) (account_id : option Z)
  : exn + bool :=
  if str_falsy contract_id then inr true
  else if int_falsy account_id then inr true
  else py_le_zero account_id.

(** [s.upper()] on an ASCII string. *)
Definition ascii_upper (c : Ascii.ascii) : Ascii.ascii :=
  let n := Ascii.nat_of_ascii c in
  if (97 <=? n)%nat && (n <=? 122)%nat then Ascii.ascii_of_nat (n - 32) else c.

Fixpoint str_upper (s : string) : string :=
  match s with
  | EmptyString => EmptyString
  | String c s' => String (ascii_upper c) (str_upper s')
  end.

(** [pat in s] for strings. *)
Fixpoint str_contains (pat s : string) : bool :=
  String.prefix pat s
  || match s with
     | EmptyString => false
     | String _ s' => str_contains pat s'
     end.

(** Lines 91-93: the base price, a float literal with an integer value. *)
Definition base_price_for_limit (contract_id : string) : Z :=
  if str_contains "CL" (str_upper contract_id) then 70
  else if str_contains "GC" (str_upper contract_id) then 2000
  else 18000.

(** The records of the [except KeyboardInterrupt] clause (lines 194-200). *)
Inductive interrupt_message : Type :=
| InterruptReceived
| LingeringOrder (id : option Z)
| LingeringCancelSent
| LingeringCancelFailed.

(** The records that reach the output.  The logger is configured at INFO
    (lines 30-31): a [logger.debug] call emits nothing unless [--debug]
    lowered the level (lines 236-239). *)
Definition emitted (debug : bool) (l : list log_record) : list log_record :=
  List.filter (λ r, match level r with DEBUG => debug | _ => true end) l.

(** ** Sample values

    Concrete status codes, events and states on which the statements below
    are evaluated.  The codes are arbitrary distinct integers: no statement
    depends on the values [tsxapipy] really uses. *)

Definition sample_working : Z := 1.
Definition sample_filled : Z := 2.
Definition sample_cancelled : Z := 3.
Definition sample_rejected : Z := 5.

Definition sample_names : gmap Z string :=
  {[ 1 := "WORKING"%string; 2 := "FILLED"%string;
     3 := "CANCELLED"%string; 5 := "REJECTED"%string ]}.

Definition sample_event (id status : Z) : gmap string pyval :=
  {[ "id"%string := PyInt id; "status"%string := PyInt status ]}.

Definition sample_tracker (id status : Z) (terminal : bool) : tracker :=
  {| tracked_order_id := Some id;
     tracked_order_status_from_stream := PyInt status;
     tracked_order_details_from_stream := Some (sample_event id status);
     is_order_terminal := terminal |}.

Definition sample_world (g : tracker) (now : Z) (sched : list tick) : world :=
  {| globals := g; monotonic := now; schedule := sched;
     logged := []; cancel_requests := [] |}.

(** Schedules for an order with id 7: a Filled event that arrives during
    the 20th sleep of the monitoring loop, one that arrives while the
    cancel request is in flight, and one that arrives during the 30th and
    last sleep of the confirmation loop. *)
Definition sample_quiet (n : nat) : list tick := replicate n (Tick 0 []).

Definition sample_fill : tick := Tick 0 [sample_event 7 sample_filled].

Definition sample_fill_while_monitoring : list tick := sample_quiet 19 ++ [sample_fill].

Definition sample_fill_while_cancelling : list tick := sample_quiet 20 ++ [sample_fill].

Definition sample_fill_in_last_confirm_sleep : list tick :=
  sample_quiet 50 ++ [sample_fill].

(** A Filled event that arrives in the 26th second, after the monitoring
    duration, and a Filled event followed by a stale Working event, both
    for order 7, that arrive while the cancel request is in flight. *)
Definition sample_fill_after_monitoring : list tick := sample_quiet 25 ++ [sample_fill].

Definition sample_fill_then_working_while_cancelling : list tick :=
  sample_quiet 20 ++ [Tick 0 [sample_event 7 sample_filled; sample_event 7 sample_working]].

(** The records of a log about a terminal state and about a failed cancel
    request. *)
Definition terminal_reports (l : list log_record) : list log_record :=
  List.filter
    (λ r, match msg r with
          | ReachedTerminal _ _ | CancelFailed _ | AlreadyTerminal _ => true
          | _ => false
          end) l.

(** The records of a log that report how the confirmation wait ended. *)
Definition confirm_reports (l : list log_record) : list log_record :=
  List.filter
    (λ r, match msg r with
          | CancelConfirmed _ | TerminalDuringCancel _ _ | CancelConfirmTimedOut _ _ => true
          | _ => false
          end) l.

Section Tracker.

(** The status constants and the status table come from [tsxapipy],
    which is outside this file: they are parameters here. *)
Variable ORDER_STATUS_FILLED : Z.
Variable ORDER_STATUS_CANCELLED : Z.
Variable ORDER_STATUS_REJECTED : Z.
Variable ORDER_STATUS_TO_STRING_MAP : gmap Z string.

(** [ORDER_STATUS_TO_STRING_MAP.get(v)] for a hashable [v]: keys are
    ints, and a key is found by hash and [==]. *)
Definition status_map_get (v : pyval) : option string :=
  py_as_int v ≫= (ORDER_STATUS_TO_STRING_MAP !!.).

(** [status_code in [ORDER_STATUS_FILLED, ORDER_STATUS_CANCELLED,
    ORDER_STATUS_REJECTED]] (line 62). *)
Definition in_terminal_list (status_code : pyval) : bool :=
  py_eq_int status_code ORDER_STATUS_FILLED
  || py_eq_int status_code ORDER_STATUS_CANCELLED
  || py_eq_int status_code ORDER_STATUS_REJECTED.

(** [handle_tracked_order_update] (lines 43-67).  The result is the
    records logged and either the exception raised or the new module
    state.  The only statement that can raise is the table lookup of
    line 52, on an unhashable status; it precedes both assignments. *)
Definition handle_tracked_order_update (g : tracker) (order_data : gmap string pyval)
  : list log_record * (exn + tracker) :=
  let order_id_from_event := dict_get order_data "id" in
  if py_eq_opt_int order_id_from_event (tracked_order_id g) then
    let l49 := LogRecord INFO (TrackedOrderUpdate (tracked_order_id g)) in
    let status_code := dict_get order_data "status" in
    if hashable status_code then
      let status_str :=
        match status_map_get status_code with
        | Some name => StatusName name
        | None => UnknownStatus status_code
        end in
      let logged :=
        [ l49;
          LogRecord INFO (NewStatus status_str status_code);
          LogRecord INFO (Quantities (dict_get order_data "cumQuantity")
                                     (dict_get order_data "leavesQuantity"));
          LogRecord INFO (AvgPx (dict_get order_data "avgPx"));
          LogRecord DEBUG (FullData order_data) ] in
      let g1 :=
        {| tracked_order_id := tracked_order_id g;
           tracked_order_status_from_stream := status_code;
           tracked_order_details_from_stream := Some order_data;
           is_order_terminal := is_order_terminal g |} in
      if in_terminal_list status_code then
        (logged ++ [LogRecord INFO (ReachedTerminal (tracked_order_id g) status_str)],
         inr {| tracked_order_id := tracked_order_id g1;
                tracked_order_status_from_stream := tracked_order_status_from_stream g1;
                tracked_order_details_from_stream := tracked_order_details_from_stream g1;
                is_order_terminal := true |})
      else (logged, inr g1)
    else ([l49], inl TypeError)
  else
    ([LogRecord DEBUG (NonTrackedUpdate order_id_from_event)], inr g).

(** *** The stream thread

    [UserHubStream] calls the handler once per order event, on its own
    thread.  An exception raised by the callback stays on that thread:
    the records logged before it remain, the module state is the one the
    handler left (unchanged, since line 52 precedes the assignments). *)
Fixpoint deliver (g : tracker) (events : list (gmap string pyval))
  : list log_record * tracker :=
  match events with
  | [] => ([], g)
  | order_data :: rest =>
      let '(l, r) := handle_tracked_order_update g order_data in
      let g' := match r with inr g' => g' | inl _ => g end in
      let '(l', g'') := deliver g' rest in
      (l ++ l', g'')
  end.

(** ** The main thread: a state monad over [world] with exceptions *)

Definition M (A : Type) : Type := world → outcome A * world.

#[global] Instance M_ret : MRet M := λ A a w, (Returned a, w).
#[global] Instance M_bind : MBind M := λ A B f m w,
  match m w with
  | (Returned a, w') => f a w'
  | (Raised e, w') => (Raised e, w')
  | (OutOfFuel, w') => (OutOfFuel, w')
  end.

Definition raise {A} (e : exn) : M A := λ w, (Raised e, w).
Definition out_of_fuel {A} : M A := λ w, (OutOfFuel, w).

Definition read_globals : M tracker := λ w, (Returned (globals w), w).

Definition time_monotonic : M Z := λ w, (Returned (monotonic w), w).

Definition log (lvl : levelname) (m : message) : M unit := λ w,
  (Returned (),
   {| globals := globals w; monotonic := monotonic w; schedule := schedule w;
      logged := logged w ++ [LogRecord lvl m];
      cancel_requests := cancel_requests w |}).

Definition set_tracked_order_id (id : option Z) : M unit := λ w,
  (Returned (),
   {| globals :=
        {| tracked_order_id := id;
           tracked_order_status_from_stream := tracked_order_status_from_stream (globals w);
           tracked_order_details_from_stream := tracked_order_details_from_stream (globals w);
           is_order_terminal := is_order_terminal (globals w) |};
      monotonic := monotonic w; schedule := schedule w;
      logged := logged w; cancel_requests := cancel_requests w |}).

(** The main thread blocks for at least [duration]: the clock advances,
    and the events of the next tick are handled on the stream thread.
    Once the schedule is used up nothing more arrives. *)
Definition block (duration : Z) : M unit := λ w,
  let tk := default (Tick 0 []) (head (schedule w)) in
  let handled := deliver (globals w) (arrivals tk) in
  (Returned (),
   {| globals := handled.2;
      monotonic := monotonic w + duration + Z.of_N (overrun tk);
      schedule := tail (schedule w);
      logged := logged w ++ handled.1;
      cancel_requests := cancel_requests w |}).

(** [time.sleep(seconds)], with the duration given in nanoseconds. *)
Definition time_sleep (ns : Z) : M unit := block ns.

(** Modelled from the spec: [OrderPlacer.cancel_order] is not part of
    this file.  Following the CommandChannel contract
    ([CancelOrder(orderId) -> Success | Failure], synchronous), the call
    records the request, blocks until the reply is there, and returns
    the reply, which is the parameter [cancel_success]. *)
Definition cancel_order (cancel_success : bool) (id : option Z) : M bool := λ w,
  (Returned cancel_success,
   (block 0
      {| globals := globals w; monotonic := monotonic w; schedule := schedule w;
         logged := logged w; cancel_requests := cancel_requests w ++ [id] |}).2).

(** [ORDER_STATUS_TO_STRING_MAP.get(v)] and [.get(v, dflt)] on the main
    thread. *)
Definition status_name (v : pyval) : M (option string) :=
  if hashable v then mret (status_map_get v) else raise TypeError.

Definition status_name_or (v : pyval) (dflt : string) : M string :=
  name ← status_name v; mret (default dflt name).

Definition second : Z := 1000000000.
Definition monitoring_duration_before_cancel : Z := 20 * second.
Definition cancel_attempt_timeout : Z := 15 * second.

(** The monitoring loop (lines 147-153); [start] is
    [start_monitor_time]. *)
Fixpoint monitor_loop (fuel : nat) (start : Z) : M unit :=
  match fuel with
  | O => out_of_fuel
  | S fuel' =>
      t ← time_monotonic;
      if t - start <? monitoring_duration_before_cancel then
        g ← read_globals;
        if is_order_terminal g then
          log INFO (TerminalBeforeCancel (tracked_order_id g))
        else
          name ← status_name_or (tracked_order_status_from_stream g) "Not Yet Seen";
          log DEBUG (Monitoring (tracked_order_id g) name);;
          time_sleep (1 * second);;
          monitor_loop fuel' start
      else mret ()
  end.

(** The confirmation loop with its [else] clause (lines 162-174);
    [start] is [cancel_confirm_start_time], and 0.5 s is [second / 2].
    As everywhere in this model the callback runs only while the main
    thread is blocked, so one poll sees one module state: the reads of
    lines 163, 166 and 168 are not interleaved with the stream thread. *)
Fixpoint confirm_loop (fuel : nat) (start : Z) : M unit :=
  match fuel with
  | O => out_of_fuel
  | S fuel' =>
      t ← time_monotonic;
      if t - start <? cancel_attempt_timeout then
        g ← read_globals;
        if is_order_terminal g
           && py_eq_int (tracked_order_status_from_stream g) ORDER_STATUS_CANCELLED then
          log INFO (CancelConfirmed (tracked_order_id g))
        else if is_order_terminal g then
          name ← status_name (tracked_order_status_from_stream g);
          log WARNING (TerminalDuringCancel (tracked_order_id g) name)
        else
          time_sleep (second / 2);;
          confirm_loop fuel' start
      else
        g ← read_globals;
        name ← status_name_or (tracked_order_status_from_stream g) "N/A";
        log WARNING (CancelConfirmTimedOut (tracked_order_id g) name)
  end.

(** Lines 146-153. *)
Definition monitor_phase (fuel : nat) : M unit :=
  start_monitor_time ← time_monotonic;
  monitor_loop fuel start_monitor_time.

(** Lines 155-179. *)
Definition cancel_phase (fuel : nat) (cancel_reply : bool) : M unit :=
  g ← read_globals;
  if negb (is_order_terminal g) then
    log INFO (AttemptCancel (tracked_order_id g));;
    cancel_success ← cancel_order cancel_reply (tracked_order_id g);
    if cancel_success : bool then
      log INFO (CancelSubmitted (tracked_order_id g));;
      cancel_confirm_start_time ← time_monotonic;
      confirm_loop fuel cancel_confirm_start_time
    else
      log ERROR (CancelFailed (tracked_order_id g));;
      g' ← read_globals;
      if is_order_terminal g' then
        name ← status_name (tracked_order_status_from_stream g');
        log INFO (AlreadyTerminal name)
      else mret ()
  else mret ().

(** Lines 181-185; an empty dict is falsy. *)
Definition report_phase : M unit :=
  log INFO FinalDetailsHeader;;
  g ← read_globals;
  match tracked_order_details_from_stream g with
  | Some d => if decide (d = ∅) then log INFO NoStreamUpdates
              else log INFO (FinalDetails d)
  | None => log INFO NoStreamUpdates
  end.

(** [not placed_order_id] for an [Optional[int]]. *)
Definition falsy (id : option Z) : bool :=
  match id with
  | None => true
  | Some n => n =? 0
  end.

(** Lines 139-140. *)
Definition start_tracking (placed_order_id : option Z) : M unit :=
  set_tracked_order_id placed_order_id;;
  log INFO (OrderPlaced placed_order_id).

(** Lines 134-185, the body of the [try] from the reply of
    [place_limit_order] on. *)
Definition lifecycle (fuel : nat) (placed_order_id : option Z) (cancel_reply : bool)
  : M unit :=
  if falsy placed_order_id then
    log ERROR PlaceFailed
  else
    start_tracking placed_order_id;;
    monitor_phase fuel;;
    cancel_phase fuel cancel_reply;;
    report_phase.

(** The [except Exception] and [finally] clauses (lines 201-207). *)
Definition run_order_lifecycle_example (fuel : nat) (placed_order_id : option Z)
    (cancel_reply : bool) : M unit := λ w,
  match lifecycle fuel placed_order_id cancel_reply w with
  | (OutOfFuel, w') => (OutOfFuel, w')
  | (Returned _, w') => (log INFO StoppingStream;; log INFO ExampleFinished) w'
  | (Raised e, w') =>
      (log ERROR (UnexpectedError e);;
       log INFO StoppingStream;; log INFO ExampleFinished) w'
  end.


(** The module state once the stream thread has handled one event. *)
Definition state_after (g : tracker) (order_data : gmap string pyval) : tracker :=
  (deliver g [order_data]).2.

(** The event carries one of the three terminal codes for the tracked
    order. *)
Definition terminal_event (g : tracker) (order_data : gmap string pyval) : bool :=
  py_eq_opt_int (dict_get order_data "id") (tracked_order_id g)
  && in_terminal_list (dict_get order_data "status").

(** The events of a run of ticks, in delivery order. *)
Definition arrived (consumed : list tick) : list (gmap string pyval) :=
  concat (arrivals <$> consumed).

(** [w'] is reached from [w] by the main thread blocking through the
    ticks [consumed] (and logging): the module state of [w'] is the one
    the stream thread made of their events, no cancel was requested. *)
Definition evolves (w w' : world) (consumed : list tick) : Prop :=
  schedule w = consumed ++ schedule w'
  ∧ globals w' = (deliver (globals w) (arrived consumed)).2
  ∧ monotonic w ≤ monotonic w'
  ∧ cancel_requests w' = cancel_requests w.

(** The record that ends the confirmation loop: the [else] clause when
    the loop timed out, otherwise the branch of the poll that broke out
    of it. *)
Definition confirm_report (timed_out : bool) (g : tracker) : log_record :=
  if timed_out then
    LogRecord WARNING
      (CancelConfirmTimedOut (tracked_order_id g)
         (default "N/A"%string (status_map_get (tracked_order_status_from_stream g))))
  else if py_eq_int (tracked_order_status_from_stream g) ORDER_STATUS_CANCELLED then
    LogRecord INFO (CancelConfirmed (tracked_order_id g))
  else
    LogRecord WARNING
      (TerminalDuringCancel (tracked_order_id g)
         (status_map_get (tracked_order_status_from_stream g))).

(** ** Properties of the stream callback *)

Definition quiet (l : list log_record) : bool :=
  forallb (λ r, negb (is_problem r)) l.

(** The event is for the tracked order: line 48 takes the [if] branch. *)
Definition for_tracked (g : tracker) (order_data : gmap string pyval) : bool :=
  py_eq_opt_int (dict_get order_data "id") (tracked_order_id g).

(** The event changes the module state: it is for the tracked order and
    the table lookup of line 52 does not raise. *)
Definition relevant (g : tracker) (order_data : gmap string pyval) : bool :=
  for_tracked g order_data && hashable (dict_get order_data "status").

(** What the assignments of lines 59-64 keep true of the module state: the
    stored status can be looked up, it is the status of the stored details,
    and a stored terminal code comes with the flag. *)
Definition consistent (g : tracker) : Prop :=
  hashable (tracked_order_status_from_stream g) = true
  ∧ (in_terminal_list (tracked_order_status_from_stream g) = true →
     is_order_terminal g = true)
  ∧ (∀ d, tracked_order_details_from_stream g = Some d →
          dict_get d "status" = tracked_order_status_from_stream g).

(** The [except KeyboardInterrupt] clause (lines 193-200), entered in the
    world [w] the main thread was interrupted in.  [order_placer_set] says
    whether line 106 had been executed.  The records of the clause are
    returned apart from the log of the world. *)
Definition on_keyboard_interrupt (order_placer_set cancel_reply : bool) (w : world)
  : list (levelname * interrupt_message) * world :=
  let g := globals w in
  if negb (falsy (tracked_order_id g)) && negb (is_order_terminal g) && order_placer_set then
    ([ (INFO, InterruptReceived);
       (WARNING, LingeringOrder (tracked_order_id g));
       if cancel_reply then (INFO, LingeringCancelSent) else (ERROR, LingeringCancelFailed) ],
     (cancel_order cancel_reply (tracked_order_id g) w).2)
  else ([(INFO, InterruptReceived)], w).

(** The time the main thread is blocked by calls of [duration] that go
    through the ticks [consumed]. *)
Definition blocked_time (duration : Z) (consumed : list tick) : Z :=
  foldr (λ tk total, duration + Z.of_N (overrun tk) + total) 0 consumed.

(** [w'] is reached from [w] by blocking through the ticks [consumed],
    whatever was logged or requested on the way. *)
Definition advances (w w' : world) (consumed : list tick) : Prop :=
  schedule w = consumed ++ schedule w'
  ∧ globals w' = (deliver (globals w) (arrived consumed)).2
  ∧ monotonic w ≤ monotonic w'.

Lemma py_eq_int_spec v n : py_eq_int v n = true ↔ py_as_int v = Some n.
Proof. unfold py_eq_int. by rewrite bool_decide_eq_true. Qed.

Lemma py_eq_int_hashable v n : py_eq_int v n = true → hashable v = true.
Proof. rewrite py_eq_int_spec. by destruct v. Qed.

Lemma in_terminal_list_spec v :
  in_terminal_list v = true ↔
  py_as_int v = Some ORDER_STATUS_FILLED
  ∨ py_as_int v = Some ORDER_STATUS_CANCELLED
  ∨ py_as_int v = Some ORDER_STATUS_REJECTED.
Proof.
  unfold in_terminal_list.
  rewrite !orb_true_iff, !py_eq_int_spec. tauto.
Qed.

Lemma in_terminal_list_hashable v : in_terminal_list v = true → hashable v = true.
Proof.
  rewrite in_terminal_list_spec. by destruct v; intros [|[|]].
Qed.

(** What the [if] branch does to the module state. *)
Lemma handle_tracked g order_data :
  for_tracked g order_data = true →
  hashable (dict_get order_data "status") = true →
  (handle_tracked_order_update g order_data).2 =
    inr {| tracked_order_id := tracked_order_id g;
           tracked_order_status_from_stream := dict_get order_data "status";
           tracked_order_details_from_stream := Some order_data;
           is_order_terminal :=
             is_order_terminal g || in_terminal_list (dict_get order_data "status") |}.
Proof.
  unfold for_tracked, handle_tracked_order_update. cbv zeta.
  intros -> ->.
  destruct (in_terminal_list _); cbn [snd];
    by rewrite ?orb_true_r, ?orb_false_r.
Qed.

Lemma handle_unhashable g order_data :
  for_tracked g order_data = true →
  hashable (dict_get order_data "status") = false →
  handle_tracked_order_update g order_data =
    ([LogRecord INFO (TrackedOrderUpdate (tracked_order_id g))], inl TypeError).
Proof.
  unfold for_tracked, handle_tracked_order_update. cbv zeta. by intros -> ->.
Qed.

Lemma handle_untracked g order_data :
  for_tracked g order_data = false →
  handle_tracked_order_update g order_data =
    ([LogRecord DEBUG (NonTrackedUpdate (dict_get order_data "id"))], inr g).
Proof.
  unfold for_tracked, handle_tracked_order_update. cbv zeta. by intros ->.
Qed.

(** The callback logs at [INFO] and [DEBUG] only. *)
Lemma handle_quiet g order_data :
  quiet (handle_tracked_order_update g order_data).1 = true.
Proof.
  unfold handle_tracked_order_update. cbv zeta.
  repeat case_match; reflexivity.
Qed.

(** The callback never assigns [tracked_order_id]. *)
Lemma handle_keeps_id g order_data g' :
  (handle_tracked_order_update g order_data).2 = inr g' →
  tracked_order_id g' = tracked_order_id g.
Proof.
  unfold handle_tracked_order_update. cbv zeta.
  repeat case_match; cbn [snd]; intros [= <-]; reflexivity.
Qed.

Lemma handle_flag g order_data g' :
  (handle_tracked_order_update g order_data).2 = inr g' →
  is_order_terminal g' =
    is_order_terminal g
    || (for_tracked g order_data && in_terminal_list (dict_get order_data "status")).
Proof.
  unfold handle_tracked_order_update, for_tracked. cbv zeta.
  repeat case_match; cbn [snd]; intros [= <-]; cbn;
    by rewrite ?orb_true_r, ?orb_false_r.
Qed.

Lemma handle_step g order_data :
  let g' := match (handle_tracked_order_update g order_data).2 with
            | inr g' => g'
            | inl _ => g
            end in
  tracked_order_id g' = tracked_order_id g
  ∧ is_order_terminal g' = is_order_terminal g || terminal_event g order_data.
Proof.
  cbv zeta.
  destruct (handle_tracked_order_update g order_data).2 as [e|g'] eqn:E.
  - split; [reflexivity|].
    unfold terminal_event. fold (for_tracked g order_data).
    destruct (for_tracked g order_data) eqn:Hid.
    + destruct (hashable (dict_get order_data "status")) eqn:Hh.
      * by rewrite handle_tracked in E.
      * destruct (in_terminal_list _) eqn:Ht; [|by rewrite orb_false_r].
        apply in_terminal_list_hashable in Ht. congruence.
    + by rewrite orb_false_r.
  - split; [by eapply handle_keeps_id|by apply handle_flag].
Qed.

Lemma state_after_unfold g order_data :
  state_after g order_data =
    match (handle_tracked_order_update g order_data).2 with
    | inr g' => g'
    | inl _ => g
    end.
Proof.
  unfold state_after. cbn [deliver].
  by destruct (handle_tracked_order_update g order_data) as [l [e|g']].
Qed.

Lemma deliver_cons g order_data rest :
  deliver g (order_data :: rest) =
    ((handle_tracked_order_update g order_data).1
       ++ (deliver (state_after g order_data) rest).1,
     (deliver (state_after g order_data) rest).2).
Proof.
  rewrite state_after_unfold. cbn [deliver].
  destruct (handle_tracked_order_update g order_data) as [l r]. cbn [fst snd].
  by destruct (deliver _ rest).
Qed.

Lemma deliver_keeps_id g events :
  tracked_order_id (deliver g events).2 = tracked_order_id g.
Proof.
  revert g. induction events as [|ev rest IH]; intros g; [reflexivity|].
  rewrite deliver_cons. cbn [snd]. rewrite IH, state_after_unfold.
  apply handle_step.
Qed.

Lemma terminal_event_same_id g g' order_data :
  tracked_order_id g' = tracked_order_id g →
  terminal_event g' order_data = terminal_event g order_data.
Proof. unfold terminal_event. by intros ->. Qed.

Lemma existsb_terminal_event_same_id g g' events :
  tracked_order_id g' = tracked_order_id g →
  existsb (terminal_event g') events = existsb (terminal_event g) events.
Proof.
  intros Hid. induction events as [|x rest IH]; [reflexivity|].
  cbn [existsb]. by rewrite IH, (terminal_event_same_id g g' x Hid).
Qed.

(** The flag after a batch of events: it was set before, or one of the
    events carried a terminal code for the tracked order. *)
Lemma deliver_flag g events :
  is_order_terminal (deliver g events).2 =
    is_order_terminal g || existsb (terminal_event g) events.
Proof.
  revert g. induction events as [|ev rest IH]; intros g.
  - cbn. by rewrite orb_false_r.
  - rewrite deliver_cons. cbn [snd existsb]. rewrite IH.
    rewrite state_after_unfold.
    destruct (handle_step g ev) as [Hid ->].
    rewrite orb_assoc. f_equal.
    by apply existsb_terminal_event_same_id.
Qed.

Lemma deliver_quiet g events : quiet (deliver g events).1 = true.
Proof.
  revert g. induction events as [|ev rest IH]; intros g; [reflexivity|].
  rewrite deliver_cons. cbn [fst]. unfold quiet in *.
  rewrite forallb_app. rewrite IH, andb_true_r. apply handle_quiet.
Qed.

(** *** The claims about the callback *)

(** C1 (as amended): when the terminal flag of the tracked order is
    already set, a later event for that order id whose status is any
    hashable value (an active code, another terminal code) is applied
    like every other event: the stored status and the details snapshot
    become the event's, the flag stays set, and nothing is logged at
    warning or error level. *)
Theorem later_event_overwrites_terminal_order g order_data :
  is_order_terminal g = true →
  for_tracked g order_data = true →
  hashable (dict_get order_data "status") = true →
  ∃ l,
    handle_tracked_order_update g order_data =
      (l, inr {| tracked_order_id := tracked_order_id g;
                 tracked_order_status_from_stream := dict_get order_data "status";
                 tracked_order_details_from_stream := Some order_data;
                 is_order_terminal := true |})
    ∧ quiet l = true.
Proof.
  intros Hterm Hid Hh.
  pose proof (handle_tracked g order_data Hid Hh) as E.
  pose proof (handle_quiet g order_data) as Q.
  destruct (handle_tracked_order_update g order_data) as [l r].
  cbn [fst snd] in *. subst r. rewrite Hterm. by exists l.
Qed.

(** C2: an event applied to the tracked order sets the terminal flag
    exactly when its status code is one of Filled, Cancelled, Rejected;
    with any other status code the flag is left as it was (so it stays
    unset when it was unset). *)
Theorem terminal_flag_set_iff_terminal_code g order_data :
  for_tracked g order_data = true →
  let status_code := dict_get order_data "status" in
  let g' := state_after g order_data in
  (in_terminal_list status_code = true → is_order_terminal g' = true)
  ∧ (in_terminal_list status_code = false → is_order_terminal g' = is_order_terminal g)
  ∧ (in_terminal_list status_code = true ↔
     py_as_int status_code = Some ORDER_STATUS_FILLED
     ∨ py_as_int status_code = Some ORDER_STATUS_CANCELLED
     ∨ py_as_int status_code = Some ORDER_STATUS_REJECTED)
  ∧ (∀ c, status_code = PyInt c →
       (is_order_terminal g = false →
        is_order_terminal g' = true ↔
        c = ORDER_STATUS_FILLED ∨ c = ORDER_STATUS_CANCELLED ∨ c = ORDER_STATUS_REJECTED)).
Proof.
  intros Hid status_code g'.
  assert (Hflag : is_order_terminal g' = is_order_terminal g || in_terminal_list status_code).
  { subst g'. rewrite state_after_unfold.
    destruct (handle_step g order_data) as [_ ->].
    unfold terminal_event. fold (for_tracked g order_data). by rewrite Hid. }
  split; [|split; [|split]].
  - intros Ht. by rewrite Hflag, Ht, orb_true_r.
  - intros Ht. by rewrite Hflag, Ht, orb_false_r.
  - apply in_terminal_list_spec.
  - intros c Hc Hg. rewrite Hflag, Hg. cbn [orb].
    rewrite in_terminal_list_spec, Hc. cbn [py_as_int].
    split; (intros [H|[H|H]]; [left|right; left|right; right]; congruence).
Qed.

(** C3: applying the same terminal-status event for the tracked order a
    second time is a no-op on the module state: status, details
    snapshot, terminal flag (and tracked id) are exactly as after the
    first application; the second call raises nothing and logs nothing
    at warning or error level. *)
Theorem duplicate_terminal_event_idempotent g order_data :
  for_tracked g order_data = true →
  in_terminal_list (dict_get order_data "status") = true →
  ∃ l1 l2 g1,
    handle_tracked_order_update g order_data = (l1, inr g1)
    ∧ handle_tracked_order_update g1 order_data = (l2, inr g1)
    ∧ is_order_terminal g1 = true
    ∧ quiet l2 = true.
Proof.
  intros Hid Ht.
  pose proof (in_terminal_list_hashable _ Ht) as Hh.
  pose proof (handle_tracked g order_data Hid Hh) as E1.
  rewrite Ht, orb_true_r in E1.
  destruct (handle_tracked_order_update g order_data) as [l1 r1] eqn:H1.
  cbn [snd] in E1. subst r1.
  set (g1 := {| tracked_order_id := tracked_order_id g |}) in *.
  assert (Hid1 : for_tracked g1 order_data = true) by exact Hid.
  pose proof (handle_tracked g1 order_data Hid1 Hh) as E2.
  pose proof (handle_quiet g1 order_data) as Q.
  destruct (handle_tracked_order_update g1 order_data) as [l2 r2] eqn:H2.
  cbn [fst snd] in E2, Q. subst r2.
  by exists l1, l2, g1.
Qed.

(** C4: an event whose order id does not equal the tracked order id
    changes nothing: the callback returns normally with the module state
    (status, details snapshot, terminal flag, tracked id) untouched, and
    its only trace is one debug record.  The same holds for any batch of
    such events. *)
Theorem untracked_event_is_ignored g order_data :
  for_tracked g order_data = false →
  handle_tracked_order_update g order_data =
    ([LogRecord DEBUG (NonTrackedUpdate (dict_get order_data "id"))], inr g)
  ∧ state_after g order_data = g
  ∧ ∀ events, forallb (λ ev, negb (for_tracked g ev)) events = true →
              (deliver g events).2 = g.
Proof.
  intros Hid. pose proof (handle_untracked g order_data Hid) as E.
  split; [exact E|]. split.
  - by rewrite state_after_unfold, E.
  - induction events as [|ev rest IH]; [reflexivity|].
    cbn [forallb]. rewrite andb_true_iff, negb_true_iff. intros [Hev Hrest].
    rewrite deliver_cons. cbn [snd].
    rewrite state_after_unfold, (handle_untracked g ev Hev). cbn [snd].
    by apply IH.
Qed.

(** C5 (as amended): an event for the tracked order whose terminal flag
    is not yet set (active to active, or active to terminal) replaces the
    stored status by the event's status and the details snapshot by the
    event's payload, and sets the flag exactly when the status is
    terminal.  The module keeps no timestamp. *)
Theorem valid_transition_updates_status_and_details g order_data :
  is_order_terminal g = false →
  for_tracked g order_data = true →
  hashable (dict_get order_data "status") = true →
  (handle_tracked_order_update g order_data).2 =
    inr {| tracked_order_id := tracked_order_id g;
           tracked_order_status_from_stream := dict_get order_data "status";
           tracked_order_details_from_stream := Some order_data;
           is_order_terminal := in_terminal_list (dict_get order_data "status") |}.
Proof.
  intros Hterm Hid Hh. rewrite (handle_tracked g order_data Hid Hh).
  by rewrite Hterm.
Qed.

(** C9: the terminal flag is monotone.  Once it is set, no event handled
    by the callback resets it, whatever the event carries (an active
    status for the tracked order included), one event or a whole batch. *)
Theorem terminal_flag_monotone g events :
  is_order_terminal g = true →
  is_order_terminal (deliver g events).2 = true
  ∧ ∀ order_data g',
      (handle_tracked_order_update g order_data).2 = inr g' →
      is_order_terminal g' = true.
Proof.
  intros Hterm. split.
  - by rewrite deliver_flag, Hterm.
  - intros order_data g' E. by rewrite (handle_flag _ _ _ E), Hterm.
Qed.

(** C10: an event for the tracked order whose status code is outside the
    known enumeration (not a terminal code, not a key of the status
    table) is accepted: the callback returns normally, stores the code as
    current status and the payload as details, leaves the terminal flag
    as it was, and logs the code as [UNKNOWN_STATUS] at info level. *)
Theorem unknown_status_is_stored g order_data :
  for_tracked g order_data = true →
  hashable (dict_get order_data "status") = true →
  in_terminal_list (dict_get order_data "status") = false →
  status_map_get (dict_get order_data "status") = None →
  ∃ l,
    handle_tracked_order_update g order_data =
      (l, inr {| tracked_order_id := tracked_order_id g;
                 tracked_order_status_from_stream := dict_get order_data "status";
                 tracked_order_details_from_stream := Some order_data;
                 is_order_terminal := is_order_terminal g |})
    ∧ quiet l = true
    ∧ LogRecord INFO (NewStatus (UnknownStatus (dict_get order_data "status"))
                                (dict_get order_data "status")) ∈ l.
Proof.
  unfold for_tracked, handle_tracked_order_update. cbv zeta.
  intros -> -> -> ->. eexists. split; [|split].
  - destruct g; reflexivity.
  - reflexivity.
  - set_solver.
Qed.

(** ** Properties of the main thread *)

Lemma deliver_app g events1 events2 :
  (deliver g (events1 ++ events2)).2 = (deliver (deliver g events1).2 events2).2.
Proof.
  revert g. induction events1 as [|ev rest IH]; intros g; [reflexivity|].
  rewrite <- app_comm_cons, !deliver_cons. cbn [snd]. apply IH.
Qed.

Lemma deliver_hashable g events :
  hashable (tracked_order_status_from_stream g) = true →
  hashable (tracked_order_status_from_stream (deliver g events).2) = true.
Proof.
  revert g. induction events as [|ev rest IH]; intros g Hg; [exact Hg|].
  rewrite deliver_cons. cbn [snd]. apply IH.
  rewrite state_after_unfold.
  destruct (for_tracked g ev) eqn:Hid.
  - destruct (hashable (dict_get ev "status")) eqn:Hh.
    + by rewrite (handle_tracked g ev Hid Hh).
    + by rewrite (handle_unhashable g ev Hid Hh).
  - by rewrite (handle_untracked g ev Hid).
Qed.

Lemma evolves_refl w : evolves w w [].
Proof. by repeat split. Qed.

Lemma evolves_trans w1 w2 w3 c12 c23 :
  evolves w1 w2 c12 → evolves w2 w3 c23 → evolves w1 w3 (c12 ++ c23).
Proof.
  intros (S1 & G1 & T1 & C1) (S2 & G2 & T2 & C2). repeat split.
  - by rewrite S1, S2, app_assoc.
  - unfold arrived in *. by rewrite fmap_app, concat_app, deliver_app, <- G1, <- G2.
  - lia.
  - congruence.
Qed.

Lemma evolves_log lvl m w : evolves w (log lvl m w).2 [].
Proof. by repeat split. Qed.

Lemma evolves_block d w :
  0 ≤ d → evolves w (block d w).2 (take 1 (schedule w)).
Proof.
  intros Hd. unfold block. cbn [snd]. repeat split; cbn.
  - by destruct (schedule w).
  - unfold arrived. destruct (schedule w) as [|tk rest]; cbn; [done|].
    by rewrite app_nil_r.
  - lia.
Qed.

Lemma evolves_id w w' consumed :
  evolves w w' consumed →
  tracked_order_id (globals w') = tracked_order_id (globals w).
Proof. intros (_ & -> & _). apply deliver_keeps_id. Qed.

Lemma evolves_flag w w' consumed :
  evolves w w' consumed →
  is_order_terminal (globals w') =
    is_order_terminal (globals w)
    || existsb (terminal_event (globals w)) (arrived consumed).
Proof. intros (_ & -> & _). apply deliver_flag. Qed.

Lemma evolves_hashable w w' consumed :
  evolves w w' consumed →
  hashable (tracked_order_status_from_stream (globals w)) = true →
  hashable (tracked_order_status_from_stream (globals w')) = true.
Proof. intros (_ & -> & _). apply deliver_hashable. Qed.

Lemma monitor_loop_unfold fuel start w :
  monitor_loop (S fuel) start w =
    if monotonic w - start <? monitoring_duration_before_cancel then
      if is_order_terminal (globals w) then
        log INFO (TerminalBeforeCancel (tracked_order_id (globals w))) w
      else if hashable (tracked_order_status_from_stream (globals w)) then
        monitor_loop fuel start
          (time_sleep (1 * second)
             (log DEBUG
                (Monitoring (tracked_order_id (globals w))
                   (default "Not Yet Seen"%string
                      (status_map_get (tracked_order_status_from_stream (globals w)))))
                w).2).2
      else (Raised TypeError, w)
    else (Returned (), w).
Proof.
  cbn [monitor_loop].
  unfold mbind, M_bind, time_monotonic, read_globals, status_name_or, status_name.
  destruct (monotonic w - start <? monitoring_duration_before_cancel); [|reflexivity].
  destruct (is_order_terminal (globals w)); [reflexivity|].
  destruct (hashable (tracked_order_status_from_stream (globals w))); reflexivity.
Qed.

(** The monitoring loop ends within [fuel] iterations when each sleep
    lasts at least its second, and it ends because the flag was seen set
    or because the duration has elapsed. *)
Lemma monitor_loop_spec fuel start w :
  hashable (tracked_order_status_from_stream (globals w)) = true →
  monitoring_duration_before_cancel - (monotonic w - start) ≤ Z.of_nat fuel * second →
  ∃ w' consumed,
    monitor_loop (S fuel) start w = (Returned (), w')
    ∧ evolves w w' consumed
    ∧ (is_order_terminal (globals w') = true
       ∨ monitoring_duration_before_cancel ≤ monotonic w' - start).
Proof.
  revert w. induction fuel as [|fuel IH]; intros w Hh Hfuel;
    rewrite monitor_loop_unfold;
    destruct (Z.ltb_spec (monotonic w - start) monitoring_duration_before_cancel)
      as [Hlt|Hge].
  - lia.
  - exists w, []. split; [done|]. split; [apply evolves_refl|by right].
  - destruct (is_order_terminal (globals w)) eqn:Hterm.
    + eexists _, []. split; [reflexivity|]. split; [apply evolves_log|by left].
    + rewrite Hh.
      set (w1 := (log DEBUG _ w).2).
      set (w2 := (time_sleep (1 * second) w1).2).
      assert (E2 : evolves w1 w2 (take 1 (schedule w1))).
      { apply evolves_block. unfold second. lia. }
      assert (E1 : evolves w w1 []) by apply evolves_log.
      pose proof (evolves_trans _ _ _ _ _ E1 E2) as E.
      destruct (IH w2) as (w' & c & Hrun & E' & Hend).
      * eapply evolves_hashable; eauto.
      * assert (monotonic w2 = monotonic w + 1 * second
                               + Z.of_N (overrun (default (Tick 0 []) (head (schedule w1)))))
          by reflexivity.
        lia.
      * exists w', (([] ++ take 1 (schedule w1)) ++ c).
        split; [exact Hrun|]. split; [|exact Hend].
        eapply evolves_trans; eauto.
  - exists w, []. split; [done|]. split; [apply evolves_refl|by right].
Qed.

Lemma confirm_loop_unfold fuel start w :
  confirm_loop (S fuel) start w =
    let g := globals w in
    if monotonic w - start <? cancel_attempt_timeout then
      if is_order_terminal g
         && py_eq_int (tracked_order_status_from_stream g) ORDER_STATUS_CANCELLED then
        log INFO (CancelConfirmed (tracked_order_id g)) w
      else if is_order_terminal g then
        if hashable (tracked_order_status_from_stream g) then
          log WARNING
            (TerminalDuringCancel (tracked_order_id g)
               (status_map_get (tracked_order_status_from_stream g))) w
        else (Raised TypeError, w)
      else confirm_loop fuel start (time_sleep (second / 2) w).2
    else if hashable (tracked_order_status_from_stream g) then
      log WARNING
        (CancelConfirmTimedOut (tracked_order_id g)
           (default "N/A"%string (status_map_get (tracked_order_status_from_stream g)))) w
    else (Raised TypeError, w).
Proof.
  cbn [confirm_loop]. cbv zeta.
  unfold mbind, M_bind, time_monotonic, read_globals, status_name_or, status_name.
  destruct (monotonic w - start <? cancel_attempt_timeout).
  - destruct (is_order_terminal (globals w)); cbn [andb].
    + destruct (py_eq_int _ _); [reflexivity|].
      unfold mbind, M_bind.
      destruct (hashable (tracked_order_status_from_stream (globals w))); reflexivity.
    + reflexivity.
  - unfold mbind, M_bind.
    destruct (hashable (tracked_order_status_from_stream (globals w))); reflexivity.
Qed.

(** The confirmation loop ends within [fuel] iterations when each sleep
    lasts at least its half second.  Its last record is the report: of
    the poll that saw the flag set, or of the time-out. *)
Lemma confirm_loop_spec fuel start w :
  hashable (tracked_order_status_from_stream (globals w)) = true →
  cancel_attempt_timeout - (monotonic w - start) ≤ Z.of_nat fuel * (second / 2) →
  ∃ w' consumed timed_out,
    confirm_loop (S fuel) start w = (Returned (), w')
    ∧ evolves w w' consumed
    ∧ last (logged w') = Some (confirm_report timed_out (globals w'))
    ∧ (timed_out = false → is_order_terminal (globals w') = true)
    ∧ (timed_out = true → cancel_attempt_timeout ≤ monotonic w' - start).
Proof.
  assert (Hhalf : second / 2 = 500000000) by reflexivity.
  revert w. induction fuel as [|fuel IH]; intros w Hh Hfuel;
    rewrite confirm_loop_unfold; cbv zeta;
    destruct (Z.ltb_spec (monotonic w - start) cancel_attempt_timeout) as [Hlt|Hge].
  - lia.
  - rewrite Hh. eexists _, [], true. split; [reflexivity|].
    split; [apply evolves_log|]. split; [|done].
    cbn [log snd logged]. by rewrite last_snoc.
  - destruct (is_order_terminal (globals w)) eqn:Hterm; cbn [andb].
    + destruct (py_eq_int _ _) eqn:Hc.
      * eexists _, [], false. split; [reflexivity|].
        split; [apply evolves_log|]. split; [|done].
        cbn [log snd logged globals]. rewrite last_snoc.
        unfold confirm_report. by rewrite Hc.
      * rewrite Hh. eexists _, [], false. split; [reflexivity|].
        split; [apply evolves_log|]. split; [|done].
        cbn [log snd logged globals]. rewrite last_snoc.
        unfold confirm_report. by rewrite Hc.
    + set (w2 := (time_sleep (second / 2) w).2).
      assert (E2 : evolves w w2 (take 1 (schedule w))).
      { apply evolves_block. lia. }
      destruct (IH w2) as (w' & c & t & Hrun & E' & Hlast & Hrest).
      * eapply evolves_hashable; eauto.
      * assert (monotonic w2 = monotonic w + second / 2
                               + Z.of_N (overrun (default (Tick 0 []) (head (schedule w)))))
          by reflexivity.
        lia.
      * exists w', (take 1 (schedule w) ++ c), t.
        split; [exact Hrun|]. split; [|by split].
        eapply evolves_trans; eauto.
  - rewrite Hh. eexists _, [], true. split; [reflexivity|].
    split; [apply evolves_log|]. split; [|done].
    cbn [log snd logged]. by rewrite last_snoc.
Qed.

Lemma cancel_phase_unfold fuel reply w :
  cancel_phase fuel reply w =
    let id := tracked_order_id (globals w) in
    if is_order_terminal (globals w) then (Returned (), w)
    else
      let w1 := (cancel_order reply id (log INFO (AttemptCancel id) w).2).2 in
      if reply then
        let w2 := (log INFO (CancelSubmitted id) w1).2 in
        confirm_loop fuel (monotonic w2) w2
      else
        let w2 := (log ERROR (CancelFailed id) w1).2 in
        if is_order_terminal (globals w2) then
          if hashable (tracked_order_status_from_stream (globals w2)) then
            log INFO
              (AlreadyTerminal (status_map_get (tracked_order_status_from_stream (globals w2))))
              w2
          else (Raised TypeError, w2)
        else (Returned (), w2).
Proof.
  unfold cancel_phase. cbv zeta.
  unfold mbind at 1. unfold M_bind at 1. unfold read_globals at 1.
  destruct (is_order_terminal (globals w)); cbn [negb]; [reflexivity|].
  destruct reply.
  - reflexivity.
  - unfold mbind, M_bind, read_globals, status_name.
    cbn [log cancel_order fst snd].
    set (w2 := {| globals := _ |}).
    destruct (is_order_terminal (globals w2)); [|reflexivity].
    destruct (hashable _); reflexivity.
Qed.

Lemma evolves_cancel_order reply id w :
  let w' := (cancel_order reply id w).2 in
  globals w' = (deliver (globals w) (arrived (take 1 (schedule w)))).2
  ∧ schedule w = take 1 (schedule w) ++ schedule w'
  ∧ monotonic w ≤ monotonic w'
  ∧ cancel_requests w' = cancel_requests w ++ [id].
Proof.
  cbv zeta. unfold cancel_order, block. cbn. repeat split.
  - unfold arrived. destruct (schedule w) as [|tk rest]; cbn; [done|].
    by rewrite app_nil_r.
  - by destruct (schedule w).
  - lia.
Qed.

Lemma report_phase_spec w :
  ∃ l,
    report_phase w =
      (Returned (),
       {| globals := globals w; monotonic := monotonic w; schedule := schedule w;
          logged := logged w ++ LogRecord INFO FinalDetailsHeader :: l;
          cancel_requests := cancel_requests w |}).
Proof.
  unfold report_phase, mbind, M_bind, read_globals, log. cbn.
  repeat case_match; eexists; cbn [globals monotonic schedule logged cancel_requests];
    rewrite <- app_assoc; reflexivity.
Qed.

Lemma monitoring_spec fuel n w :
  (21 ≤ fuel)%nat →
  hashable (tracked_order_status_from_stream (globals w)) = true →
  ∃ w1 consumed,
    (start_tracking (Some n);; monitor_phase fuel) w = (Returned (), w1)
    ∧ tracked_order_id (globals w1) = Some n
    ∧ schedule w = consumed ++ schedule w1
    ∧ is_order_terminal (globals w1) =
        is_order_terminal (globals w)
        || existsb (terminal_event (globals w1)) (arrived consumed)
    ∧ (is_order_terminal (globals w1) = true
       ∨ monitoring_duration_before_cancel ≤ monotonic w1 - monotonic w)
    ∧ cancel_requests w1 = cancel_requests w
    ∧ hashable (tracked_order_status_from_stream (globals w1)) = true.
Proof.
  intros Hfuel Hh. destruct fuel as [|fuel]; [lia|].
  set (w0 := (start_tracking (Some n) w).2).
  assert (Hrun : (start_tracking (Some n);; monitor_phase (S fuel)) w
                 = monitor_loop (S fuel) (monotonic w0) w0) by reflexivity.
  destruct (monitor_loop_spec fuel (monotonic w0) w0) as (w1 & c & Hloop & E & Hend).
  - exact Hh.
  - change (monotonic w0) with (monotonic w).
    unfold monitoring_duration_before_cancel, second. lia.
  - exists w1, c. rewrite Hrun.
    pose proof (evolves_id _ _ _ E) as Hid.
    pose proof (evolves_flag _ _ _ E) as Hflag.
    pose proof (evolves_hashable _ _ _ E Hh) as Hh1.
    destruct E as (Hs & _ & _ & Hc).
    repeat split; try done.
    rewrite Hflag. f_equal. symmetry.
    by apply existsb_terminal_event_same_id.
Qed.

Lemma lifecycle_unfold fuel n reply w :
  n ≠ 0 →
  lifecycle fuel (Some n) reply w =
    match (start_tracking (Some n);; monitor_phase fuel) w with
    | (Returned _, w1) => (cancel_phase fuel reply;; report_phase) w1
    | (Raised e, w1) => (Raised e, w1)
    | (OutOfFuel, w1) => (OutOfFuel, w1)
    end.
Proof.
  intros Hn. unfold lifecycle. cbn [falsy].
  destruct (Z.eqb_spec n 0) as [|_]; [done|].
  reflexivity.
Qed.

Lemma cancel_phase_spec fuel reply w :
  (31 ≤ fuel)%nat →
  hashable (tracked_order_status_from_stream (globals w)) = true →
  ∃ w',
    cancel_phase fuel reply w = (Returned (), w')
    ∧ cancel_requests w' =
        cancel_requests w
        ++ (if is_order_terminal (globals w) then [] else [tracked_order_id (globals w)]).
Proof.
  intros Hfuel Hh. rewrite cancel_phase_unfold. cbv zeta.
  destruct (is_order_terminal (globals w)) eqn:Hterm.
  { exists w. by rewrite app_nil_r. }
  set (id := tracked_order_id (globals w)).
  set (w1 := (cancel_order reply id _).2).
  destruct (evolves_cancel_order reply id (log INFO (AttemptCancel id) w).2)
    as (Hg & _ & _ & Hc).
  fold w1 in Hg, Hc. cbn [log snd globals cancel_requests] in Hg, Hc.
  assert (Hh1 : hashable (tracked_order_status_from_stream (globals w1)) = true).
  { rewrite Hg. by apply deliver_hashable. }
  destruct reply.
  - destruct fuel as [|fuel]; [lia|].
    set (w2 := (log INFO (CancelSubmitted id) w1).2).
    destruct (confirm_loop_spec fuel (monotonic w2) w2) as (w' & c & t & Hrun & E & _).
    + exact Hh1.
    + assert (second / 2 = 500000000) by reflexivity.
      unfold cancel_attempt_timeout, second in *. lia.
    + exists w'. split; [exact Hrun|].
      destruct E as (_ & _ & _ & ->). exact Hc.
  - cbn [log snd globals]. rewrite Hh1.
    destruct (is_order_terminal (globals w1)); eexists; (split; [reflexivity|exact Hc]).
Qed.

Lemma run_returned fuel placed reply w w' :
  lifecycle fuel placed reply w = (Returned (), w') →
  run_order_lifecycle_example fuel placed reply w =
    (Returned (),
     {| globals := globals w'; monotonic := monotonic w'; schedule := schedule w';
        logged := (logged w' ++ [LogRecord INFO StoppingStream])
                  ++ [LogRecord INFO ExampleFinished];
        cancel_requests := cancel_requests w' |}).
Proof. unfold run_order_lifecycle_example. by intros ->. Qed.

Lemma cancel_phase_failed fuel w :
  is_order_terminal (globals w) = false →
  hashable (tracked_order_status_from_stream (globals w)) = true →
  let id := tracked_order_id (globals w) in
  let w1 := (cancel_order false id (log INFO (AttemptCancel id) w).2).2 in
  let w2 := (log ERROR (CancelFailed id) w1).2 in
  cancel_phase fuel false w =
    (Returned (),
     if is_order_terminal (globals w1) then
       (log INFO
          (AlreadyTerminal (status_map_get (tracked_order_status_from_stream (globals w1))))
          w2).2
     else w2).
Proof.
  intros Hterm Hh. cbv zeta. rewrite cancel_phase_unfold. cbv zeta. rewrite Hterm.
  set (id := tracked_order_id (globals w)).
  set (w1 := (cancel_order false id _).2).
  destruct (evolves_cancel_order false id (log INFO (AttemptCancel id) w).2)
    as (Hg & _).
  fold w1 in Hg. cbn [log snd globals] in Hg.
  assert (Hh1 : hashable (tracked_order_status_from_stream (globals w1)) = true).
  { rewrite Hg. by apply deliver_hashable. }
  cbn [log snd globals]. rewrite Hh1.
  by destruct (is_order_terminal (globals w1)).
Qed.

Lemma time_sleep_spec ns w tk rest :
  schedule w = tk :: rest →
  let w' := (time_sleep ns w).2 in
  schedule w' = rest
  ∧ globals w' = (deliver (globals w) (arrivals tk)).2
  ∧ monotonic w' = monotonic w + ns + Z.of_N (overrun tk)
  ∧ cancel_requests w' = cancel_requests w.
Proof. intros Hs. cbv zeta. unfold time_sleep, block. rewrite Hs. by cbn. Qed.

Lemma blocked_time_cons d t c :
  blocked_time d (t :: c) = d + Z.of_N (overrun t) + blocked_time d c.
Proof. reflexivity. Qed.

Lemma blocked_time_nonneg d c : 0 ≤ d → 0 ≤ blocked_time d c.
Proof.
  intros Hd. induction c as [|t c IH]; [done|].
  rewrite blocked_time_cons. lia.
Qed.

(** The monitoring loop, tick by tick: a sleep starts only while the
    duration has not elapsed and the flag is unset, so the ticks consumed
    end with the first sleep after which one of the two fails. *)
Lemma monitor_loop_exact k : ∀ fuel start w,
  (k ≤ fuel)%nat →
  hashable (tracked_order_status_from_stream (globals w)) = true →
  monitoring_duration_before_cancel - (monotonic w - start) ≤ Z.of_nat k * second →
  ∃ w' consumed,
    monitor_loop (S fuel) start w = (Returned (), w')
    ∧ evolves w w' consumed
    ∧ (∀ p tk rest, consumed = p ++ tk :: rest →
         monotonic w - start + blocked_time (1 * second) p
           < monitoring_duration_before_cancel
         ∧ is_order_terminal (deliver (globals w) (arrived p)).2 = false)
    ∧ (schedule w' ≠ [] →
       monotonic w' = monotonic w + blocked_time (1 * second) consumed)
    ∧ (is_order_terminal (globals w') = true
       ∨ monitoring_duration_before_cancel ≤ monotonic w' - start).
Proof.
  induction k as [|k IH]; intros fuel start w Hk Hh Hleft;
    rewrite monitor_loop_unfold;
    destruct (Z.ltb_spec (monotonic w - start) monitoring_duration_before_cancel)
      as [Hlt|Hge].
  - lia.
  - exists w, []. split; [done|]. split; [apply evolves_refl|].
    split; [by intros [|? ?] ? ? ?|]. split; [|by right].
    intros _. change (blocked_time (1 * second) []) with 0. lia.
  - destruct (is_order_terminal (globals w)) eqn:Hterm.
    + eexists _, []. split; [reflexivity|]. split; [apply evolves_log|].
      split; [by intros [|? ?] ? ? ?|]. split; [|by left].
      intros _. change (blocked_time (1 * second) []) with 0. cbn. lia.
    + rewrite Hh. destruct fuel as [|fuel]; [lia|].
      set (w1 := (log DEBUG _ w).2).
      set (w2 := (time_sleep (1 * second) w1).2).
      assert (E2 : evolves w1 w2 (take 1 (schedule w1))).
      { apply evolves_block. unfold second. lia. }
      assert (E1 : evolves w w1 []) by apply evolves_log.
      pose proof (evolves_trans _ _ _ _ _ E1 E2) as E.
      assert (Ht2 : monotonic w2 = monotonic w + 1 * second
                      + Z.of_N (overrun (default (Tick 0 []) (head (schedule w)))))
        by reflexivity.
      destruct (IH fuel start w2) as (w' & c & Hrun & E' & Hpre & Htime & Hend).
      * lia.
      * eapply evolves_hashable; eauto.
      * lia.
      * exists w', (([] ++ take 1 (schedule w1)) ++ c).
        split; [exact Hrun|]. split; [eapply evolves_trans; eauto|].
        change (schedule w1) with (schedule w). cbn [app].
        destruct (schedule w) as [|t s] eqn:Hsched.
        -- (* the schedule is used up: nothing more is consumed *)
           assert (Hs2 : schedule w2 = []).
           { change (schedule w2) with (tail (schedule w)). by rewrite Hsched. }
           destruct E' as (Hs' & _). rewrite Hs2 in Hs'.
           destruct c as [|? ?]; [|discriminate]. cbn in Hs'.
           split; [by intros [|? ?] ? ? ?|]. split; [|exact Hend].
           intros Hne. by rewrite <- Hs' in Hne.
        -- assert (Hg2 : globals w2 = (deliver (globals w) (arrivals t)).2).
           { change (globals w2)
               with (deliver (globals w)
                       (arrivals (default (Tick 0 []) (head (schedule w))))).2.
             by rewrite Hsched. }
           rewrite ?Hsched in Ht2. cbn [head default from_option] in Ht2.
           unfold id in Ht2.
           change (take 1 (t :: s)) with (t :: take 0 s).
           rewrite take_0. cbn [app].
           split; [|split; [|exact Hend]].
           ++ intros [|x p'] tk rest Heq; cbn [app] in Heq.
              ** split; [|exact Hterm].
                 change (blocked_time (1 * second) []) with 0. lia.
              ** injection Heq as <- Hc.
                 destruct (Hpre p' tk rest Hc) as [Hp1 Hp2]. split.
                 --- rewrite blocked_time_cons. lia.
                 --- change (arrived (t :: p')) with (arrivals t ++ arrived p').
                     by rewrite deliver_app, <- Hg2.
           ++ intros Hne. rewrite (Htime Hne), blocked_time_cons. lia.
  - exists w, []. split; [done|]. split; [apply evolves_refl|].
    split; [by intros [|? ?] ? ? ?|]. split; [|by right].
    intros _. change (blocked_time (1 * second) []) with 0. lia.
Qed.

(** *** The claims about the session *)

(** C6: a cancel request is issued for the tracked order if and only if
    the order has not reached a terminal state by the end of the monitor
    duration.  With an order id to track and the flag unset on entry, the
    monitoring loop sleeps through a prefix [consumed] of the schedule; a
    sleep starts only while less than the 20 seconds have gone by and no
    event with a terminal code for the tracked order has arrived, and the
    loop ends at the first poll where one of the two fails.  The session
    requests the cancel exactly when none of the events delivered during
    those sleeps carried a terminal code for the tracked order, and then
    at least the 20 seconds have elapsed; when one did, no cancel is
    requested.  The run itself always returns. *)
Theorem cancel_issued_iff_not_terminal_after_monitoring fuel n reply w :
  (31 ≤ fuel)%nat →
  n ≠ 0 →
  hashable (tracked_order_status_from_stream (globals w)) = true →
  is_order_terminal (globals w) = false →
  ∃ w1 consumed,
    (start_tracking (Some n);; monitor_phase fuel) w = (Returned (), w1)
    ∧ tracked_order_id (globals w1) = Some n
    ∧ schedule w = consumed ++ schedule w1
    ∧ (∀ p tk rest, consumed = p ++ tk :: rest →
         blocked_time (1 * second) p < 20 * second
         ∧ existsb (terminal_event (globals w1)) (arrived p) = false)
    ∧ is_order_terminal (globals w1) =
        existsb (terminal_event (globals w1)) (arrived consumed)
    ∧ (is_order_terminal (globals w1) = false →
       20 * second ≤ monotonic w1 - monotonic w)
    ∧ (schedule w1 ≠ [] →
       monotonic w1 - monotonic w = blocked_time (1 * second) consumed)
    ∧ (run_order_lifecycle_example fuel (Some n) reply w).1 = Returned ()
    ∧ cancel_requests (run_order_lifecycle_example fuel (Some n) reply w).2 =
        cancel_requests w
        ++ (if existsb (terminal_event (globals w1)) (arrived consumed)
            then [] else [Some n]).
Proof.
  intros Hfuel Hn Hh Hterm. destruct fuel as [|fuel]; [lia|].
  set (w0 := (start_tracking (Some n) w).2).
  assert (Hmon : (start_tracking (Some n);; monitor_phase (S fuel)) w
                 = monitor_loop (S fuel) (monotonic w0) w0) by reflexivity.
  destruct (monitor_loop_exact 20 fuel (monotonic w0) w0)
    as (w1 & c & Hloop & E & Hpre & Htime & Hend).
  { lia. }
  { exact Hh. }
  { unfold monitoring_duration_before_cancel, second. lia. }
  pose proof (evolves_id _ _ _ E) as Hid.
  pose proof (evolves_flag _ _ _ E) as Hflag.
  pose proof (evolves_hashable _ _ _ E Hh) as Hh1.
  change (is_order_terminal (globals w0)) with (is_order_terminal (globals w)) in Hflag.
  rewrite Hterm in Hflag. cbn [orb] in Hflag.
  rewrite <- (existsb_terminal_event_same_id _ _ _ Hid) in Hflag.
  destruct (cancel_phase_spec (S fuel) reply w1 Hfuel Hh1) as (w2 & Hcp & Hc2).
  destruct (report_phase_spec w2) as (l & Hrp).
  assert (Hlife : lifecycle (S fuel) (Some n) reply w
                  = (Returned (),
                     {| globals := globals w2; monotonic := monotonic w2;
                        schedule := schedule w2;
                        logged := logged w2 ++ LogRecord INFO FinalDetailsHeader :: l;
                        cancel_requests := cancel_requests w2 |})).
  { rewrite (lifecycle_unfold _ _ _ _ Hn), Hmon, Hloop.
    unfold mbind, M_bind. by rewrite Hcp. }
  exists w1, c. rewrite Hmon, Hloop, (run_returned _ _ _ _ _ Hlife).
  cbn [fst snd cancel_requests].
  destruct E as (Hs & _ & _ & Hc).
  split; [done|]. split; [exact Hid|]. split; [exact Hs|].
  split; [|split; [exact Hflag|split; [|split; [|split; [done|]]]]].
  - intros p tk rest Heq. destruct (Hpre p tk rest Heq) as [Hp1 Hp2].
    rewrite Z.sub_diag in Hp1. split; [exact Hp1|].
    rewrite deliver_flag in Hp2.
    change (is_order_terminal (globals w0)) with (is_order_terminal (globals w)) in Hp2.
    rewrite Hterm in Hp2. cbn [orb] in Hp2.
    by rewrite (existsb_terminal_event_same_id _ _ _ Hid).
  - intros Hterm1. destruct Hend as [Habs|Helapsed]; [congruence|exact Helapsed].
  - intros Hne. rewrite (Htime Hne). change (monotonic w0) with (monotonic w). lia.
  - rewrite Hc2, Hc, Hid, <- Hflag. reflexivity.
Qed.

(** A failed cancel request with the flag found set afterwards: the body
    returns, and the error record is followed by the table name of the
    stored status and by the final details. *)
Lemma failed_cancel_is_not_fatal fuel n w :
  (31 ≤ fuel)%nat →
  n ≠ 0 →
  hashable (tracked_order_status_from_stream (globals w)) = true →
  let r := run_order_lifecycle_example fuel (Some n) false w in
  cancel_requests r.2 = cancel_requests w ++ [Some n] →
  is_order_terminal (globals r.2) = true →
  (lifecycle fuel (Some n) false w).1 = Returned ()
  ∧ r.1 = Returned ()
  ∧ ∃ l1 l2,
      logged r.2 =
        l1 ++ [ LogRecord ERROR (CancelFailed (Some n));
                LogRecord INFO
                  (AlreadyTerminal
                     (status_map_get (tracked_order_status_from_stream (globals r.2)))) ]
           ++ LogRecord INFO FinalDetailsHeader :: l2.
Proof.
  intros Hfuel Hn Hh. cbv zeta.
  destruct (monitoring_spec fuel n w) as (w1 & c & Hmon & Hid & Hs & Hflag & Hend & Hc & Hh1);
    [lia|done|].
  destruct (is_order_terminal (globals w1)) eqn:Hterm1.
  - (* no cancel was requested *)
    destruct (cancel_phase_spec fuel false w1 Hfuel Hh1) as (w2 & Hcp & Hc2).
    destruct (report_phase_spec w2) as (l & Hrp).
    assert (Hlife : lifecycle fuel (Some n) false w
                    = (Returned (),
                       {| globals := globals w2; monotonic := monotonic w2;
                          schedule := schedule w2;
                          logged := logged w2 ++ LogRecord INFO FinalDetailsHeader :: l;
                          cancel_requests := cancel_requests w2 |})).
    { rewrite (lifecycle_unfold _ _ _ _ Hn), Hmon.
      unfold mbind, M_bind. by rewrite Hcp. }
    rewrite (run_returned _ _ _ _ _ Hlife). cbn [fst snd cancel_requests].
    rewrite Hc2, Hterm1, app_nil_r, Hc. intros Habs.
    apply (f_equal length) in Habs. rewrite length_app in Habs. cbn in Habs. lia.
  - pose proof (cancel_phase_failed fuel w1 Hterm1 Hh1) as Hcp. cbv zeta in Hcp.
    rewrite Hid in Hcp.
    set (w1' := (cancel_order false (Some n) (log INFO (AttemptCancel (Some n)) w1).2).2) in *.
    set (w2 := (log ERROR (CancelFailed (Some n)) w1').2) in *.
    destruct (is_order_terminal (globals w1')) eqn:Hterm2.
    + set (w3 := (log INFO _ w2).2) in *.
      destruct (report_phase_spec w3) as (l & Hrp).
      assert (Hlife : lifecycle fuel (Some n) false w
                      = (Returned (),
                         {| globals := globals w3; monotonic := monotonic w3;
                            schedule := schedule w3;
                            logged := logged w3 ++ LogRecord INFO FinalDetailsHeader :: l;
                            cancel_requests := cancel_requests w3 |})).
      { rewrite (lifecycle_unfold _ _ _ _ Hn), Hmon.
        unfold mbind, M_bind. by rewrite Hcp. }
      rewrite (run_returned _ _ _ _ _ Hlife), Hlife.
      cbn [fst snd cancel_requests globals logged]. intros _ _.
      split; [done|]. split; [done|].
      exists (logged w1'), (l ++ [LogRecord INFO StoppingStream; LogRecord INFO ExampleFinished]).
      change (globals w3) with (globals w1').
      change (logged w3) with ((logged w1' ++ [LogRecord ERROR (CancelFailed (Some n))])
                               ++ [LogRecord INFO (AlreadyTerminal
                                     (status_map_get (tracked_order_status_from_stream (globals w1'))))]).
      by rewrite <- !app_assoc.
    + destruct (report_phase_spec w2) as (l & Hrp).
      assert (Hlife : lifecycle fuel (Some n) false w
                      = (Returned (),
                         {| globals := globals w2; monotonic := monotonic w2;
                            schedule := schedule w2;
                            logged := logged w2 ++ LogRecord INFO FinalDetailsHeader :: l;
                            cancel_requests := cancel_requests w2 |})).
      { rewrite (lifecycle_unfold _ _ _ _ Hn), Hmon.
        unfold mbind, M_bind. by rewrite Hcp. }
      rewrite (run_returned _ _ _ _ _ Hlife).
      cbn [fst snd cancel_requests globals logged]. intros _.
      change (globals w2) with (globals w1'). congruence.
Qed.

(** C8 (as amended): when the cancel request fails and the terminal flag
    is then found set, the failure is not fatal: no exception leaves the
    body of the session, and the error record of the failed request is
    followed by the report of the status that is stored from the stream
    at that moment, under its name in the status table, and by the final
    details.  When the stored status is one of the three terminal codes,
    that report names this terminal status.  (The stored status is the
    one of the last event handled for the order: an active status that
    arrived after the terminal one is what gets reported.) *)
Theorem failed_cancel_reports_stored_status fuel n w :
  (31 ≤ fuel)%nat →
  n ≠ 0 →
  hashable (tracked_order_status_from_stream (globals w)) = true →
  let r := run_order_lifecycle_example fuel (Some n) false w in
  let stored := tracked_order_status_from_stream (globals r.2) in
  cancel_requests r.2 = cancel_requests w ++ [Some n] →
  is_order_terminal (globals r.2) = true →
  (lifecycle fuel (Some n) false w).1 = Returned ()
  ∧ r.1 = Returned ()
  ∧ (∃ l1 l2,
       logged r.2 =
         l1 ++ [ LogRecord ERROR (CancelFailed (Some n));
                 LogRecord INFO
                   (AlreadyTerminal (py_as_int stored ≫= (ORDER_STATUS_TO_STRING_MAP !!.))) ]
            ++ LogRecord INFO FinalDetailsHeader :: l2)
  ∧ (in_terminal_list stored = true →
     ∃ c l1 l2,
       (c = ORDER_STATUS_FILLED ∨ c = ORDER_STATUS_CANCELLED ∨ c = ORDER_STATUS_REJECTED)
       ∧ py_as_int stored = Some c
       ∧ logged r.2 =
           l1 ++ [ LogRecord ERROR (CancelFailed (Some n));
                   LogRecord INFO (AlreadyTerminal (ORDER_STATUS_TO_STRING_MAP !! c)) ]
              ++ LogRecord INFO FinalDetailsHeader :: l2).
Proof.
  intros Hfuel Hn Hh. cbv zeta. intros Hreq Hterm.
  destruct (failed_cancel_is_not_fatal fuel n w Hfuel Hn Hh Hreq Hterm)
    as (Hbody & Hret & l1 & l2 & Hlog).
  change (status_map_get ?v) with (py_as_int v ≫= (ORDER_STATUS_TO_STRING_MAP !!.)) in Hlog.
  split; [exact Hbody|]. split; [exact Hret|]. split; [by exists l1, l2|].
  intros Ht. apply in_terminal_list_spec in Ht.
  assert (∃ c, (c = ORDER_STATUS_FILLED ∨ c = ORDER_STATUS_CANCELLED
                ∨ c = ORDER_STATUS_REJECTED)
               ∧ py_as_int (tracked_order_status_from_stream
                              (globals (run_order_lifecycle_example fuel (Some n) false w).2))
                 = Some c) as (c & Hc & Hstored).
  { destruct Ht as [Ht|[Ht|Ht]]; eexists; (split; [|exact Ht]); tauto. }
  exists c, l1, l2. split; [exact Hc|]. split; [exact Hstored|].
  rewrite Hlog, Hstored. reflexivity.
Qed.

(** ** Further properties of the stream callback *)

Lemma state_after_relevant g order_data :
  relevant g order_data = true →
  state_after g order_data =
    {| tracked_order_id := tracked_order_id g;
       tracked_order_status_from_stream := dict_get order_data "status";
       tracked_order_details_from_stream := Some order_data;
       is_order_terminal :=
         is_order_terminal g || in_terminal_list (dict_get order_data "status") |}.
Proof.
  unfold relevant. rewrite andb_true_iff. intros [Hid Hh].
  by rewrite state_after_unfold, (handle_tracked g order_data Hid Hh).
Qed.

Lemma state_after_irrelevant g order_data :
  relevant g order_data = false → state_after g order_data = g.
Proof.
  unfold relevant. rewrite state_after_unfold. intros Hrel.
  destruct (for_tracked g order_data) eqn:Hid; cbn [andb] in Hrel.
  - by rewrite (handle_unhashable g order_data Hid Hrel).
  - by rewrite (handle_untracked g order_data Hid).
Qed.

Lemma relevant_same_id g g' order_data :
  tracked_order_id g' = tracked_order_id g →
  relevant g' order_data = relevant g order_data.
Proof. unfold relevant, for_tracked. by intros ->. Qed.

Lemma filter_relevant_same_id g g' events :
  tracked_order_id g' = tracked_order_id g →
  List.filter (relevant g') events = List.filter (relevant g) events.
Proof.
  intros Hid. induction events as [|ev rest IH]; [reflexivity|].
  cbn [List.filter]. by rewrite IH, (relevant_same_id g g' ev Hid).
Qed.

Lemma terminal_event_relevant g order_data :
  terminal_event g order_data = true → relevant g order_data = true.
Proof.
  unfold terminal_event, relevant, for_tracked. rewrite !andb_true_iff.
  intros [Hid Ht]. split; [exact Hid|by apply in_terminal_list_hashable].
Qed.

Lemma no_relevant_no_terminal g events :
  List.filter (relevant g) events = [] →
  existsb (terminal_event g) events = false.
Proof.
  induction events as [|ev rest IH]; [reflexivity|].
  cbn [List.filter existsb]. destruct (relevant g ev) eqn:Hrel; [discriminate|].
  intros Hrest. rewrite (IH Hrest), orb_false_r.
  destruct (terminal_event g ev) eqn:Ht; [|reflexivity].
  apply terminal_event_relevant in Ht. congruence.
Qed.

(** Status and details after a batch are those of its last relevant
    event. *)
Lemma deliver_status_details g events :
  let g' := (deliver g events).2 in
  (tracked_order_status_from_stream g', tracked_order_details_from_stream g') =
    match last (List.filter (relevant g) events) with
    | None => (tracked_order_status_from_stream g, tracked_order_details_from_stream g)
    | Some order_data => (dict_get order_data "status", Some order_data)
    end.
Proof.
  cbv zeta. revert g. induction events as [|ev rest IH]; intros g; [reflexivity|].
  rewrite deliver_cons. cbn [snd List.filter]. rewrite IH.
  destruct (relevant g ev) eqn:Hrel.
  - rewrite (state_after_relevant g ev Hrel).
    rewrite (filter_relevant_same_id g) by reflexivity.
    rewrite last_cons. by destruct (last (List.filter (relevant g) rest)).
  - by rewrite (state_after_irrelevant g ev Hrel).
Qed.

(** X1: the effect of a batch of events on the module state in closed
    form.  Only the events for the tracked order with a hashable status
    count; the stored status and details are those of the last of them,
    whatever came before (terminal or not), and the flag is set when it
    was set or any event of the batch carried a terminal code for the
    tracked order.  With no such event the state is untouched. *)
Theorem batch_effect_is_last_relevant_event g events :
  (deliver g events).2 =
    match last (List.filter (relevant g) events) with
    | None => g
    | Some order_data =>
        {| tracked_order_id := tracked_order_id g;
           tracked_order_status_from_stream := dict_get order_data "status";
           tracked_order_details_from_stream := Some order_data;
           is_order_terminal :=
             is_order_terminal g || existsb (terminal_event g) events |}
    end.
Proof.
  pose proof (deliver_keeps_id g events) as Hid.
  pose proof (deliver_flag g events) as Hflag.
  pose proof (deliver_status_details g events) as Hsd. cbv zeta in Hsd.
  destruct (last (List.filter (relevant g) events)) as [ev|] eqn:Hlast.
  - destruct (deliver g events).2. cbn in *. congruence.
  - apply last_None in Hlast.
    rewrite (no_relevant_no_terminal g events Hlast), orb_false_r in Hflag.
    destruct (deliver g events).2, g. cbn in *. congruence.
Qed.

Lemma state_after_consistent g order_data :
  consistent g → consistent (state_after g order_data).
Proof.
  intros (Hh & Ht & Hd).
  destruct (relevant g order_data) eqn:Hrel.
  - rewrite (state_after_relevant g order_data Hrel).
    unfold relevant in Hrel. apply andb_true_iff in Hrel as [_ Hh'].
    repeat split; cbn.
    + exact Hh'.
    + intros ->. apply orb_true_r.
    + by intros d [= <-].
  - by rewrite (state_after_irrelevant g order_data Hrel).
Qed.

(** X2: an invariant of the callback.  If the stored status is hashable,
    agrees with the status field of the stored details, and is a terminal
    code only when the flag is set, then the same holds after any batch of
    events.  (The converse fails: the flag can be set while the stored
    status is an active one.) *)
Theorem callback_keeps_state_consistent g events :
  consistent g → consistent (deliver g events).2.
Proof.
  revert g. induction events as [|ev rest IH]; intros g Hg; [exact Hg|].
  rewrite deliver_cons. cbn [snd]. apply IH. by apply state_after_consistent.
Qed.

(** X3: an event for the tracked order whose status is unhashable (a JSON
    array or object) makes the callback raise [TypeError] at the table
    lookup, after one info record and before any assignment: the module
    state is untouched, and the rest of a batch is handled as if the event
    had not been there. *)
Theorem unhashable_status_raises_before_any_change g order_data rest :
  for_tracked g order_data = true →
  hashable (dict_get order_data "status") = false →
  handle_tracked_order_update g order_data =
    ([LogRecord INFO (TrackedOrderUpdate (tracked_order_id g))], inl TypeError)
  ∧ (deliver g (order_data :: rest)).2 = (deliver g rest).2.
Proof.
  intros Hid Hh. split; [by apply handle_unhashable|].
  rewrite deliver_cons. cbn [snd]. rewrite state_after_irrelevant; [reflexivity|].
  unfold relevant. by rewrite Hid, Hh.
Qed.

(** ** Further properties of the main thread *)

Lemma evolves_advances w w' consumed : evolves w w' consumed → advances w w' consumed.
Proof. intros (Hs & Hg & Ht & _). by repeat split. Qed.

Lemma advances_refl w : advances w w [].
Proof. by repeat split. Qed.

Lemma advances_trans w1 w2 w3 c12 c23 :
  advances w1 w2 c12 → advances w2 w3 c23 → advances w1 w3 (c12 ++ c23).
Proof.
  intros (S1 & G1 & T1) (S2 & G2 & T2). repeat split.
  - by rewrite S1, S2, app_assoc.
  - unfold arrived in *. by rewrite fmap_app, concat_app, deliver_app, <- G1, <- G2.
  - lia.
Qed.

Lemma advances_same w w' :
  globals w' = globals w → schedule w' = schedule w → monotonic w' = monotonic w →
  advances w w' [].
Proof. intros Hg Hs Ht. repeat split; cbn; [by rewrite Hs|by rewrite Hg|lia]. Qed.

Lemma advances_cancel_order reply id w :
  advances w (cancel_order reply id w).2 (take 1 (schedule w)).
Proof.
  destruct (evolves_cancel_order reply id w) as (Hg & Hs & Ht & _).
  by repeat split.
Qed.

Lemma length_take_1 {A} (l : list A) : (length (take 1 l) ≤ 1)%nat.
Proof. rewrite length_take. lia. Qed.

(** The monitoring loop sleeps at most once per second of duration that
    is left. *)
Lemma monitor_loop_bounded k fuel start w :
  (k ≤ fuel)%nat →
  hashable (tracked_order_status_from_stream (globals w)) = true →
  monitoring_duration_before_cancel - (monotonic w - start) ≤ Z.of_nat k * second →
  ∃ w' consumed,
    monitor_loop (S fuel) start w = (Returned (), w')
    ∧ evolves w w' consumed
    ∧ (length consumed ≤ k)%nat.
Proof.
  revert fuel w. induction k as [|k IH]; intros fuel w Hk Hh Hleft;
    rewrite monitor_loop_unfold;
    destruct (Z.ltb_spec (monotonic w - start) monitoring_duration_before_cancel)
      as [Hlt|Hge].
  - lia.
  - exists w, []. split; [done|]. split; [apply evolves_refl|cbn; lia].
  - destruct (is_order_terminal (globals w)) eqn:Hterm.
    + eexists _, []. split; [reflexivity|]. split; [apply evolves_log|cbn; lia].
    + rewrite Hh. destruct fuel as [|fuel]; [lia|].
      set (w1 := (log DEBUG _ w).2).
      set (w2 := (time_sleep (1 * second) w1).2).
      assert (E2 : evolves w1 w2 (take 1 (schedule w1))).
      { apply evolves_block. unfold second. lia. }
      assert (E1 : evolves w w1 []) by apply evolves_log.
      pose proof (evolves_trans _ _ _ _ _ E1 E2) as E.
      destruct (IH fuel w2) as (w' & c & Hrun & E' & Hlen).
      * lia.
      * eapply evolves_hashable; eauto.
      * assert (monotonic w2 = monotonic w + 1 * second
                               + Z.of_N (overrun (default (Tick 0 []) (head (schedule w1)))))
          by reflexivity.
        lia.
      * exists w', (([] ++ take 1 (schedule w1)) ++ c).
        split; [exact Hrun|]. split; [eapply evolves_trans; eauto|].
        pose proof (length_take_1 (schedule w1)).
        rewrite length_app. cbn [app]. lia.
  - exists w, []. split; [done|]. split; [apply evolves_refl|cbn; lia].
Qed.

(** The confirmation loop sleeps at most once per half second of time-out
    that is left. *)
Lemma confirm_loop_bounded k fuel start w :
  (k ≤ fuel)%nat →
  hashable (tracked_order_status_from_stream (globals w)) = true →
  cancel_attempt_timeout - (monotonic w - start) ≤ Z.of_nat k * (second / 2) →
  ∃ w' consumed,
    confirm_loop (S fuel) start w = (Returned (), w')
    ∧ evolves w w' consumed
    ∧ (length consumed ≤ k)%nat.
Proof.
  assert (Hhalf : second / 2 = 500000000) by reflexivity.
  revert fuel w. induction k as [|k IH]; intros fuel w Hk Hh Hleft;
    rewrite confirm_loop_unfold; cbv zeta;
    destruct (Z.ltb_spec (monotonic w - start) cancel_attempt_timeout) as [Hlt|Hge].
  - lia.
  - rewrite Hh. eexists _, []. split; [reflexivity|].
    split; [apply evolves_log|cbn; lia].
  - destruct (is_order_terminal (globals w)) eqn:Hterm; cbn [andb].
    + destruct (py_eq_int _ _).
      * eexists _, []. split; [reflexivity|]. split; [apply evolves_log|cbn; lia].
      * rewrite Hh. eexists _, []. split; [reflexivity|].
        split; [apply evolves_log|cbn; lia].
    + destruct fuel as [|fuel]; [lia|].
      set (w2 := (time_sleep (second / 2) w).2).
      assert (E2 : evolves w w2 (take 1 (schedule w))).
      { apply evolves_block. lia. }
      destruct (IH fuel w2) as (w' & c & Hrun & E' & Hlen).
      * lia.
      * eapply evolves_hashable; eauto.
      * assert (monotonic w2 = monotonic w + second / 2
                               + Z.of_N (overrun (default (Tick 0 []) (head (schedule w)))))
          by reflexivity.
        lia.
      * exists w', (take 1 (schedule w) ++ c).
        split; [exact Hrun|]. split; [eapply evolves_trans; eauto|].
        pose proof (length_take_1 (schedule w)).
        rewrite length_app. lia.
  - rewrite Hh. eexists _, []. split; [reflexivity|].
    split; [apply evolves_log|cbn; lia].
Qed.

Lemma cancel_phase_trace fuel reply w :
  (31 ≤ fuel)%nat →
  hashable (tracked_order_status_from_stream (globals w)) = true →
  ∃ w' consumed,
    cancel_phase fuel reply w = (Returned (), w')
    ∧ advances w w' consumed
    ∧ (length consumed ≤ 31)%nat.
Proof.
  intros Hfuel Hh. rewrite cancel_phase_unfold. cbv zeta.
  destruct (is_order_terminal (globals w)) eqn:Hterm.
  { exists w, []. split; [done|]. split; [apply advances_refl|cbn; lia]. }
  set (id := tracked_order_id (globals w)).
  set (w0 := (log INFO (AttemptCancel id) w).2).
  set (w1 := (cancel_order reply id w0).2).
  assert (A1 : advances w w1 (take 1 (schedule w))).
  { apply (advances_trans w w0 w1 [] (take 1 (schedule w0))).
    - apply evolves_advances, evolves_log.
    - apply advances_cancel_order. }
  assert (Hh1 : hashable (tracked_order_status_from_stream (globals w1)) = true).
  { destruct A1 as (_ & -> & _). by apply deliver_hashable. }
  pose proof (length_take_1 (schedule w)) as Hlen1.
  destruct reply.
  - destruct fuel as [|fuel]; [lia|].
    set (w2 := (log INFO (CancelSubmitted id) w1).2).
    destruct (confirm_loop_bounded 30 fuel (monotonic w2) w2) as (w' & c & Hrun & E & Hlen).
    + lia.
    + exact Hh1.
    + assert (second / 2 = 500000000) by reflexivity.
      unfold cancel_attempt_timeout, second in *. lia.
    + exists w', (take 1 (schedule w) ++ [] ++ c).
      split; [exact Hrun|]. split.
      * eapply advances_trans; [exact A1|].
        eapply advances_trans; [apply evolves_advances, evolves_log|].
        apply evolves_advances, E.
      * rewrite length_app. cbn [app]. lia.
  - cbn [log snd globals]. rewrite Hh1.
    destruct (is_order_terminal (globals w1)); eexists _, (take 1 (schedule w) ++ []);
      (split; [reflexivity|]);
      (split; [|rewrite length_app; cbn; lia]);
      (eapply advances_trans; [exact A1|]); by apply advances_same.
Qed.

(** The body of the session from a placed order on: it always returns,
    and what it leaves behind is determined by the ticks it blocked
    through. *)
Lemma lifecycle_trace fuel n reply w :
  (31 ≤ fuel)%nat →
  n ≠ 0 →
  hashable (tracked_order_status_from_stream (globals w)) = true →
  ∃ w' consumed,
    lifecycle fuel (Some n) reply w = (Returned (), w')
    ∧ advances (start_tracking (Some n) w).2 w' consumed
    ∧ (length consumed ≤ 51)%nat.
Proof.
  intros Hfuel Hn Hh. destruct fuel as [|fuel]; [lia|].
  set (w0 := (start_tracking (Some n) w).2).
  assert (Hmon : (start_tracking (Some n);; monitor_phase (S fuel)) w
                 = monitor_loop (S fuel) (monotonic w0) w0) by reflexivity.
  destruct (monitor_loop_bounded 20 fuel (monotonic w0) w0) as (w1 & c1 & Hloop & E1 & Hlen1).
  - lia.
  - exact Hh.
  - unfold monitoring_duration_before_cancel, second. lia.
  - destruct (cancel_phase_trace (S fuel) reply w1) as (w2 & c2 & Hcp & A2 & Hlen2).
    + lia.
    + by apply (evolves_hashable _ _ _ E1).
    + destruct (report_phase_spec w2) as (l & Hrp).
      eexists _, (c1 ++ c2 ++ []). split; [|split].
      * rewrite (lifecycle_unfold _ _ _ _ Hn), Hmon, Hloop.
        unfold mbind, M_bind. rewrite Hcp. exact Hrp.
      * eapply advances_trans; [apply evolves_advances, E1|].
        eapply advances_trans; [exact A2|]. by apply advances_same.
      * rewrite !length_app. cbn. lia.
Qed.

(** X5: the session never resets the terminal flag.  If the flag is
    already set when an order has been placed (a stale flag of an earlier
    order, or an event taken for the tracked order before placement), the
    monitoring loop ends at its first test: the session does not sleep,
    does not consume any event, requests no cancel and leaves the stored
    status, details and flag as they were. *)
Theorem stale_flag_skips_monitoring_and_cancel fuel n reply w :
  (1 ≤ fuel)%nat →
  n ≠ 0 →
  is_order_terminal (globals w) = true →
  ∃ l,
    run_order_lifecycle_example fuel (Some n) reply w =
      (Returned (),
       {| globals := globals (set_tracked_order_id (Some n) w).2;
          monotonic := monotonic w;
          schedule := schedule w;
          logged := logged w ++ LogRecord INFO (OrderPlaced (Some n))
                                :: LogRecord INFO (TerminalBeforeCancel (Some n)) :: l;
          cancel_requests := cancel_requests w |}).
Proof.
  intros Hfuel Hn Hterm. destruct fuel as [|fuel]; [lia|].
  set (w0 := (start_tracking (Some n) w).2).
  set (w1 := (log INFO (TerminalBeforeCancel (Some n)) w0).2).
  assert (Hmon : (start_tracking (Some n);; monitor_phase (S fuel)) w = (Returned (), w1)).
  { change ((start_tracking (Some n);; monitor_phase (S fuel)) w)
      with (monitor_loop (S fuel) (monotonic w0) w0).
    rewrite monitor_loop_unfold, Z.sub_diag.
    change (is_order_terminal (globals w0)) with (is_order_terminal (globals w)).
    by rewrite Hterm. }
  destruct (report_phase_spec w1) as (l & Hrp).
  assert (Hlife : lifecycle (S fuel) (Some n) reply w = report_phase w1).
  { rewrite (lifecycle_unfold _ _ _ _ Hn), Hmon.
    unfold mbind, M_bind. rewrite cancel_phase_unfold. cbv zeta.
    change (is_order_terminal (globals w1)) with (is_order_terminal (globals w)).
    by rewrite Hterm. }
  rewrite Hrp in Hlife. rewrite (run_returned _ _ _ _ _ Hlife).
  exists (LogRecord INFO FinalDetailsHeader
          :: l ++ [LogRecord INFO StoppingStream; LogRecord INFO ExampleFinished]).
  cbn [globals monotonic schedule logged cancel_requests].
  change (logged w1)
    with ((logged w ++ [LogRecord INFO (OrderPlaced (Some n))])
          ++ [LogRecord INFO (TerminalBeforeCancel (Some n))]).
  f_equal. f_equal. rewrite <- !app_assoc. reflexivity.
Qed.

(** X6: the body of the session raises no exception, with or without a
    placed order and whatever the cancel request replies, as long as the
    stored status is hashable on entry (the callback keeps it so): the
    [except Exception] clause is never entered and the run ends with the
    two records of the [finally] clause. *)
Theorem session_body_never_raises fuel placed reply w :
  (31 ≤ fuel)%nat →
  hashable (tracked_order_status_from_stream (globals w)) = true →
  ∃ w',
    lifecycle fuel placed reply w = (Returned (), w')
    ∧ (run_order_lifecycle_example fuel placed reply w).1 = Returned ()
    ∧ logged (run_order_lifecycle_example fuel placed reply w).2 =
        logged w' ++ [LogRecord INFO StoppingStream; LogRecord INFO ExampleFinished].
Proof.
  intros Hfuel Hh.
  assert (Hlife : ∃ w', lifecycle fuel placed reply w = (Returned (), w')).
  { destruct (falsy placed) eqn:Hf.
    - unfold lifecycle. rewrite Hf. by eexists.
    - destruct placed as [n|]; [|discriminate].
      cbn in Hf. apply Z.eqb_neq in Hf.
      destruct (lifecycle_trace fuel n reply w Hfuel Hf Hh) as (w' & c & Hrun & _).
      by exists w'. }
  destruct Hlife as (w' & Hlife). exists w'.
  rewrite (run_returned _ _ _ _ _ Hlife). cbn [fst snd logged].
  by rewrite <- app_assoc.
Qed.

(** X7: the session itself writes one global only, the tracked order id.
    At the end of a run with a placed order the module state is the state
    on entry with the new id, run through the callback on the events of
    the ticks the session blocked through, in order; those ticks are a
    prefix of the schedule, and time has not gone back. *)
Theorem session_writes_tracked_id_only fuel n reply w :
  (31 ≤ fuel)%nat →
  n ≠ 0 →
  hashable (tracked_order_status_from_stream (globals w)) = true →
  ∃ consumed,
    let w' := (run_order_lifecycle_example fuel (Some n) reply w).2 in
    schedule w = consumed ++ schedule w'
    ∧ globals w' =
        (deliver {| tracked_order_id := Some n;
                    tracked_order_status_from_stream :=
                      tracked_order_status_from_stream (globals w);
                    tracked_order_details_from_stream :=
                      tracked_order_details_from_stream (globals w);
                    is_order_terminal := is_order_terminal (globals w) |}
                 (arrived consumed)).2
    ∧ tracked_order_id (globals w') = Some n
    ∧ monotonic w ≤ monotonic w'.
Proof.
  intros Hfuel Hn Hh.
  destruct (lifecycle_trace fuel n reply w Hfuel Hn Hh) as (w' & c & Hrun & A & _).
  exists c. rewrite (run_returned _ _ _ _ _ Hrun). cbn [snd schedule globals monotonic].
  destruct A as (Hs & Hg & Ht). repeat split; try done.
  rewrite Hg. apply deliver_keeps_id.
Qed.

(** X8: a run blocks at most 51 times: 20 sleeps of the monitoring loop,
    the cancel request and 30 sleeps of the confirmation loop.  Whatever
    the schedule holds beyond the ticks consumed is left unseen. *)
Theorem session_blocks_at_most_51_times fuel n reply w :
  (31 ≤ fuel)%nat →
  n ≠ 0 →
  hashable (tracked_order_status_from_stream (globals w)) = true →
  ∃ consumed,
    schedule w = consumed ++ schedule (run_order_lifecycle_example fuel (Some n) reply w).2
    ∧ (length consumed ≤ 51)%nat.
Proof.
  intros Hfuel Hn Hh.
  destruct (lifecycle_trace fuel n reply w Hfuel Hn Hh) as (w' & c & Hrun & A & Hlen).
  exists c. rewrite (run_returned _ _ _ _ _ Hrun). cbn [snd schedule].
  destruct A as (Hs & _). by split.
Qed.

Lemma deliver_untracked g events :
  forallb (λ ev, negb (for_tracked g ev)) events = true →
  (deliver g events).2 = g.
Proof.
  induction events as [|ev rest IH]; [reflexivity|].
  cbn [forallb]. rewrite andb_true_iff, negb_true_iff. intros [Hev Hrest].
  rewrite deliver_cons. cbn [snd].
  rewrite state_after_unfold, (handle_untracked g ev Hev). by apply IH.
Qed.

(** X4: while no order is tracked, the tracked id is [None] and so is the
    id of an event without the key: such an event is taken for the tracked
    order.  From the initial module state, after any number of events that
    do carry an id (all ignored), one event without id and with a terminal
    status is stored and sets the terminal flag, before any order exists. *)
Theorem event_without_id_is_taken_for_the_untracked_order events order_data :
  Forall (λ ev, ∃ v, ev !! "id"%string = Some v ∧ v ≠ PyNone) events →
  order_data !! "id"%string = None →
  in_terminal_list (dict_get order_data "status") = true →
  (deliver initial_tracker (events ++ [order_data])).2 =
    {| tracked_order_id := None;
       tracked_order_status_from_stream := dict_get order_data "status";
       tracked_order_details_from_stream := Some order_data;
       is_order_terminal := true |}.
Proof.
  intros Hev Hid Ht. rewrite deliver_app.
  rewrite (deliver_untracked initial_tracker events).
  - assert (Hrel : relevant initial_tracker order_data = true).
    { unfold relevant, for_tracked, dict_get. rewrite Hid. cbn.
      by apply in_terminal_list_hashable. }
    change (deliver initial_tracker [order_data]).2
      with (state_after initial_tracker order_data).
    rewrite (state_after_relevant _ _ Hrel), Ht. reflexivity.
  - induction Hev as [|ev rest (v & Hv & Hne) _ IH]; [reflexivity|].
    cbn [forallb]. rewrite IH, andb_true_r.
    unfold for_tracked, dict_get. rewrite Hv. cbn. by destruct v.
Qed.

(** X11: a placement that returns [None], or the order id 0, is a failed
    placement: the run logs the error and the two records of the [finally]
    clause and does nothing else; it tracks no order, does not wait and
    requests no cancel. *)
Theorem falsy_order_id_is_a_failed_placement fuel placed reply w :
  placed = None ∨ placed = Some 0 →
  run_order_lifecycle_example fuel placed reply w =
    (Returned (),
     {| globals := globals w; monotonic := monotonic w; schedule := schedule w;
        logged := logged w ++ [ LogRecord ERROR PlaceFailed;
                                LogRecord INFO StoppingStream;
                                LogRecord INFO ExampleFinished ];
        cancel_requests := cancel_requests w |}).
Proof.
  intros Hp.
  assert (Hlife : lifecycle fuel placed reply w = log ERROR PlaceFailed w)
    by (destruct Hp as [-> | ->]; reflexivity).
  rewrite (run_returned _ _ _ _ _ Hlife).
  cbn [log snd globals monotonic schedule logged cancel_requests].
  by rewrite <- !app_assoc.
Qed.

(** X12: the interrupt clause asks whether an order is tracked and not
    terminal, not whether a cancel was already requested.  An interrupt
    that arrives after the cancel for order [n] was submitted, at any
    point of the wait that follows, sends a second cancel for [n] when the
    flag is still unset, and none when the flag is set. *)
Theorem interrupt_after_cancel_request_cancels_again n reply w w' consumed :
  n ≠ 0 →
  tracked_order_id (globals w) = Some n →
  evolves (cancel_order true (Some n) w).2 w' consumed →
  cancel_requests (on_keyboard_interrupt true reply w').2 =
    cancel_requests w
    ++ Some n :: (if is_order_terminal (globals w') then [] else [Some n]).
Proof.
  intros Hn Hid E.
  destruct (evolves_cancel_order true (Some n) w) as (Hg & _ & _ & Hc).
  assert (Hid' : tracked_order_id (globals w') = Some n).
  { rewrite (evolves_id _ _ _ E). cbv zeta in Hg. rewrite Hg.
    by rewrite deliver_keeps_id. }
  destruct E as (_ & _ & _ & Hc').
  unfold on_keyboard_interrupt. cbv zeta. rewrite Hid'. cbn [falsy].
  destruct (Z.eqb_spec n 0) as [|_]; [done|]. cbn [negb andb].
  destruct (is_order_terminal (globals w')); cbn [negb andb snd].
  - by rewrite Hc', Hc.
  - destruct (evolves_cancel_order reply (Some n) w') as (_ & _ & _ & ->).
    cbv zeta in Hc. rewrite Hc', Hc. by rewrite <- app_assoc.
Qed.

Lemma arrived_app c1 c2 : arrived (c1 ++ c2) = arrived c1 ++ arrived c2.
Proof. unfold arrived. by rewrite fmap_app, concat_app. Qed.

Lemma advances_silent w w' consumed :
  advances w w' consumed →
  forallb (λ ev, negb (for_tracked (globals w) ev)) (arrived (schedule w)) = true →
  globals w' = globals w
  ∧ forallb (λ ev, negb (for_tracked (globals w') ev)) (arrived (schedule w')) = true.
Proof.
  intros (Hs & Hg & _) Hq.
  rewrite Hs, arrived_app, forallb_app in Hq. apply andb_true_iff in Hq as [H1 H2].
  rewrite Hg, (deliver_untracked _ _ H1). by split.
Qed.

(** X10: a stream that delivers no event for the placed order.  If the
    flag is unset on entry and no event of the schedule carries the id of
    the placed order, the run requests exactly one cancel for it, after
    the 20 seconds of monitoring; when the request succeeds, the run
    reports the confirmation time-out with the status stored on entry
    ([N/A] when it has no name), not before 35 seconds have passed, and
    the stored status, details and flag are as on entry. *)
Theorem silent_stream_ends_in_confirmation_timeout fuel n w :
  (31 ≤ fuel)%nat →
  n ≠ 0 →
  hashable (tracked_order_status_from_stream (globals w)) = true →
  is_order_terminal (globals w) = false →
  forallb (λ ev, negb (py_eq_opt_int (dict_get ev "id") (Some n)))
          (arrived (schedule w)) = true →
  let r := run_order_lifecycle_example fuel (Some n) true w in
  r.1 = Returned ()
  ∧ cancel_requests r.2 = cancel_requests w ++ [Some n]
  ∧ LogRecord WARNING
      (CancelConfirmTimedOut (Some n)
         (default "N/A"%string
            (status_map_get (tracked_order_status_from_stream (globals w)))))
    ∈ logged r.2
  ∧ 35 * second ≤ monotonic r.2 - monotonic w
  ∧ globals r.2 = globals (set_tracked_order_id (Some n) w).2.
Proof.
  intros Hfuel Hn Hh Hterm Hq. cbv zeta. destruct fuel as [|fuel]; [lia|].
  set (w0 := (start_tracking (Some n) w).2).
  assert (Hq0 : forallb (λ ev, negb (for_tracked (globals w0) ev))
                        (arrived (schedule w0)) = true) by exact Hq.
  assert (Hmon : (start_tracking (Some n);; monitor_phase (S fuel)) w
                 = monitor_loop (S fuel) (monotonic w0) w0) by reflexivity.
  destruct (monitor_loop_spec fuel (monotonic w0) w0) as (w1 & c1 & Hloop & E1 & Hend).
  { exact Hh. }
  { unfold monitoring_duration_before_cancel, second. lia. }
  destruct (advances_silent w0 w1 c1 (evolves_advances _ _ _ E1) Hq0) as [Hg1 Hq1].
  assert (Hterm1 : is_order_terminal (globals w1) = false) by (by rewrite Hg1).
  assert (Hid1 : tracked_order_id (globals w1) = Some n) by (by rewrite Hg1).
  destruct Hend as [Habs|Helapsed1]; [congruence|].
  set (w1a := (log INFO (AttemptCancel (Some n)) w1).2).
  set (w1b := (cancel_order true (Some n) w1a).2).
  set (w2 := (log INFO (CancelSubmitted (Some n)) w1b).2).
  assert (Hcp : cancel_phase (S fuel) true w1 = confirm_loop (S fuel) (monotonic w2) w2).
  { rewrite cancel_phase_unfold. cbv zeta. by rewrite Hterm1, Hid1. }
  assert (A2 : advances w1 w2 ([] ++ take 1 (schedule w1a) ++ [])).
  { apply (advances_trans w1 w1a w2).
    - apply evolves_advances, evolves_log.
    - apply (advances_trans w1a w1b w2).
      + apply advances_cancel_order.
      + apply evolves_advances, evolves_log. }
  destruct (advances_silent w1 w2 _ A2 Hq1) as [Hg2 Hq2].
  destruct (evolves_cancel_order true (Some n) w1a) as (_ & _ & Ht1b & Hc1b).
  fold w1b in Ht1b, Hc1b.
  destruct (confirm_loop_spec fuel (monotonic w2) w2)
    as (w3 & c3 & t & Hrun & E3 & Hlast & Hf & Ht).
  { by rewrite Hg2, Hg1. }
  { assert (second / 2 = 500000000) by reflexivity.
    unfold cancel_attempt_timeout, second in *. lia. }
  destruct (advances_silent w2 w3 c3 (evolves_advances _ _ _ E3) Hq2) as [Hg3 _].
  destruct t.
  2: { specialize (Hf eq_refl). rewrite Hg3, Hg2 in Hf. congruence. }
  specialize (Ht eq_refl).
  destruct (report_phase_spec w3) as (l & Hrp).
  assert (Hlife : lifecycle (S fuel) (Some n) true w
                  = (Returned (),
                     {| globals := globals w3; monotonic := monotonic w3;
                        schedule := schedule w3;
                        logged := logged w3 ++ LogRecord INFO FinalDetailsHeader :: l;
                        cancel_requests := cancel_requests w3 |})).
  { rewrite (lifecycle_unfold _ _ _ _ Hn), Hmon, Hloop.
    unfold mbind, M_bind. by rewrite Hcp, Hrun. }
  rewrite (run_returned _ _ _ _ _ Hlife).
  cbn [fst snd globals monotonic logged cancel_requests].
  split; [done|]. split; [|split; [|split]].
  - destruct E3 as (_ & _ & _ & ->). destruct E1 as (_ & _ & _ & Hc1).
    change (cancel_requests w2) with (cancel_requests w1b).
    rewrite Hc1b. change (cancel_requests w1a) with (cancel_requests w1).
    by rewrite Hc1.
  - apply last_Some in Hlast as (l' & ->).
    unfold confirm_report. rewrite Hg3, Hg2, Hg1.
    change (tracked_order_id (globals w0)) with (Some n).
    change (tracked_order_status_from_stream (globals w0))
      with (tracked_order_status_from_stream (globals w)).
    set_solver.
  - destruct E1 as (_ & _ & Ht01 & _).
    change (monotonic w2) with (monotonic w1b) in Ht.
    change (monotonic w1a) with (monotonic w1) in Ht1b.
    change (monotonic w0) with (monotonic w) in *.
    unfold monitoring_duration_before_cancel, cancel_attempt_timeout, second in *. lia.
  - by rewrite Hg3, Hg2, Hg1.
Qed.

(** X15: the monitoring loop notices a terminal event at its next poll.
    If the first event with a terminal code for the tracked order arrives
    during a sleep that starts before the monitoring duration is over, the
    loop ends right after that sleep: it has consumed the ticks up to that
    one and no more, the flag is set, and the time spent is the time of
    those sleeps. *)
Theorem monitoring_ends_at_first_poll_after_terminal_event pre : ∀ fuel start w tk post,
  schedule w = pre ++ tk :: post →
  (length pre + 2 ≤ fuel)%nat →
  hashable (tracked_order_status_from_stream (globals w)) = true →
  is_order_terminal (globals w) = false →
  existsb (terminal_event (globals w)) (arrived pre) = false →
  existsb (terminal_event (globals w)) (arrivals tk) = true →
  monotonic w - start + blocked_time (1 * second) pre
    < monitoring_duration_before_cancel →
  ∃ w',
    monitor_loop fuel start w = (Returned (), w')
    ∧ schedule w' = post
    ∧ is_order_terminal (globals w') = true
    ∧ globals w' = (deliver (globals w) (arrived (pre ++ [tk]))).2
    ∧ monotonic w' = monotonic w + blocked_time (1 * second) (pre ++ [tk])
    ∧ cancel_requests w' = cancel_requests w.
Proof.
  induction pre as [|t pre IH]; intros fuel start w tk post Hs Hfuel Hh Hterm Hpre Htk Htime.
  - destruct fuel as [|[|fuel]]; [cbn in Hfuel; lia..|].
    change (blocked_time (1 * second) []) with 0 in Htime.
    rewrite monitor_loop_unfold.
    destruct (Z.ltb_spec (monotonic w - start) monitoring_duration_before_cancel); [|lia].
    rewrite Hterm, Hh.
    set (w1 := (log DEBUG _ w).2).
    destruct (time_sleep_spec (1 * second) w1 tk post Hs) as (Hs2 & Hg2 & Ht2 & Hc2).
    set (w2 := (time_sleep (1 * second) w1).2) in *.
    change (globals w1) with (globals w) in Hg2.
    change (monotonic w1) with (monotonic w) in Ht2.
    change (cancel_requests w1) with (cancel_requests w) in Hc2.
    assert (Hterm2 : is_order_terminal (globals w2) = true).
    { by rewrite Hg2, deliver_flag, Htk, orb_true_r. }
    assert (Hg2' : globals w2 = (deliver (globals w) (arrived ([] ++ [tk]))).2).
    { rewrite Hg2. unfold arrived. cbn. by rewrite app_nil_r. }
    assert (Ht2' : monotonic w2 = monotonic w + blocked_time (1 * second) ([] ++ [tk])).
    { rewrite Ht2. cbn [app]. rewrite blocked_time_cons.
      change (blocked_time (1 * second) []) with 0. lia. }
    rewrite monitor_loop_unfold, Hterm2.
    destruct (monotonic w2 - start <? monitoring_duration_before_cancel);
      eexists; (split; [reflexivity|]); by repeat split.
  - destruct fuel as [|fuel]; [cbn in Hfuel; lia|].
    rewrite blocked_time_cons in Htime.
    assert (0 ≤ blocked_time (1 * second) pre)
      by (apply blocked_time_nonneg; unfold second; lia).
    assert (0 < 1 * second) by (unfold second; lia).
    rewrite monitor_loop_unfold.
    destruct (Z.ltb_spec (monotonic w - start) monitoring_duration_before_cancel);
      [|lia].
    rewrite Hterm, Hh.
    set (w1 := (log DEBUG _ w).2).
    assert (Hs1 : schedule w1 = t :: (pre ++ tk :: post)) by exact Hs.
    destruct (time_sleep_spec (1 * second) w1 t _ Hs1) as (Hs2 & Hg2 & Ht2 & Hc2).
    set (w2 := (time_sleep (1 * second) w1).2) in *.
    change (globals w1) with (globals w) in Hg2.
    change (monotonic w1) with (monotonic w) in Ht2.
    change (cancel_requests w1) with (cancel_requests w) in Hc2.
    change (arrived (t :: pre)) with (arrivals t ++ arrived pre) in Hpre.
    rewrite existsb_app in Hpre. apply orb_false_iff in Hpre as [Hpre1 Hpre2].
    assert (Hid2 : tracked_order_id (globals w2) = tracked_order_id (globals w)).
    { rewrite Hg2. apply deliver_keeps_id. }
    destruct (IH fuel start w2 tk post) as (w' & Hrun & Hs' & Hterm' & Hg' & Ht' & Hc').
    + exact Hs2.
    + cbn in Hfuel. lia.
    + rewrite Hg2. by apply deliver_hashable.
    + by rewrite Hg2, deliver_flag, Hterm, Hpre1.
    + by rewrite (existsb_terminal_event_same_id _ _ _ Hid2).
    + by rewrite (existsb_terminal_event_same_id _ _ _ Hid2).
    + rewrite Ht2. lia.
    + exists w'. split; [exact Hrun|]. split; [exact Hs'|]. split; [exact Hterm'|].
      split; [|split].
      * rewrite Hg', Hg2. rewrite <- app_comm_cons.
        change (arrived (t :: pre ++ [tk])) with (arrivals t ++ arrived (pre ++ [tk])).
        by rewrite deliver_app.
      * rewrite Ht', Ht2. rewrite <- app_comm_cons, blocked_time_cons. lia.
      * by rewrite Hc', Hc2.
Qed.

Lemma emitted_app debug l1 l2 :
  emitted debug (l1 ++ l2) = emitted debug l1 ++ emitted debug l2.
Proof. apply List.filter_app. Qed.

Lemma handle_emitted g order_data :
  (length (emitted false (handle_tracked_order_update g order_data).1) ≤ 5)%nat
  ∧ (1 ≤ length (emitted true (handle_tracked_order_update g order_data).1) ≤ 6)%nat.
Proof.
  unfold handle_tracked_order_update. cbv zeta.
  repeat case_match; cbn; lia.
Qed.

(** X16: the stream thread never logs at warning or error level,
    whatever it is sent: no event is reported as a problem.  At the
    configured INFO level it emits at most five records per event, and
    none at all for a batch of events of other orders; with [--debug]
    every event leaves at least one record and at most six. *)
Theorem stream_thread_logs_no_problem g events :
  quiet (deliver g events).1 = true
  ∧ (length (emitted false (deliver g events).1) ≤ 5 * length events)%nat
  ∧ (length events ≤ length (emitted true (deliver g events).1) ≤ 6 * length events)%nat
  ∧ (forallb (λ ev, negb (for_tracked g ev)) events = true →
     emitted false (deliver g events).1 = []).
Proof.
  revert g. induction events as [|ev rest IH]; intros g; [by cbn|].
  rewrite deliver_cons. cbn [fst].
  destruct (IH (state_after g ev)) as (Hq & Hinfo & Hdebug & Hother).
  destruct (handle_emitted g ev) as [Hinfo1 Hdebug1].
  rewrite !emitted_app, !length_app. cbn [length].
  split; [|split; [lia|split; [lia|]]].
  - unfold quiet in *. by rewrite forallb_app, Hq, andb_true_r, handle_quiet.
  - cbn [forallb]. rewrite andb_true_iff, negb_true_iff. intros [Hev Hrest].
    assert (Hsame : state_after g ev = g)
      by (by rewrite state_after_unfold, (handle_untracked g ev Hev)).
    rewrite Hsame in Hother |- *.
    rewrite (handle_untracked g ev Hev). cbn [fst].
    rewrite (Hother Hrest). reflexivity.
Qed.

End Tracker.

(** ** Properties of the command line check and of the base price *)

(** X13: the check of the parsed arguments never raises, although
    [None <= 0] would: an unset account id is refused before it is
    compared.  The run starts exactly when the contract id is a non-empty
    string and the account id is a positive integer. *)
Theorem arguments_accepted_iff_valid contract_id account_id :
  ∃ refused,
    arguments_refused contract_id account_id = inr refused
    ∧ (refused = false ↔
       (∃ s, contract_id = Some s ∧ s ≠ ""%string)
       ∧ (∃ n, account_id = Some n ∧ 0 < n)).
Proof.
  unfold arguments_refused.
  destruct contract_id as [s|]; cbn [str_falsy].
  - case_bool_decide as Hs.
    + exists true. split; [done|]. split; [done|]. intros [(s' & [= <-] & Hne) _]. done.
    + destruct account_id as [n|]; cbn [int_falsy py_le_zero].
      * destruct (Z.eqb_spec n 0) as [->|Hn0].
        -- exists true. split; [done|]. split; [done|].
           intros [_ (n' & [= <-] & Hpos)]. lia.
        -- exists (n <=? 0). split; [done|]. rewrite Z.leb_gt. split.
           ++ intros Hpos. split; [by exists s|by exists n].
           ++ by intros [_ (n' & [= <-] & Hpos)].
      * exists true. split; [done|]. split; [done|]. by intros [_ (n' & [=] & _)].
  - exists true. split; [done|]. split; [done|]. by intros [(s' & [=] & _) _].
Qed.

Lemma str_upper_app s1 s2 :
  str_upper (s1 +:+ s2) = str_upper s1 +:+ str_upper s2.
Proof.
  induction s1 as [|c s1 IH]; [reflexivity|].
  change (String c s1 +:+ s2) with (String c (s1 +:+ s2)).
  cbn [str_upper]. rewrite IH. reflexivity.
Qed.

Lemma str_contains_unfold pat s :
  str_contains pat s =
    String.prefix pat s
    || match s with
       | EmptyString => false
       | String _ s' => str_contains pat s'
       end.
Proof. by destruct s. Qed.

Lemma str_contains_app pat s1 s2 :
  String.prefix pat s2 = true → str_contains pat (s1 +:+ s2) = true.
Proof.
  intros Hp. induction s1 as [|c s1 IH].
  - change (EmptyString +:+ s2) with s2. by rewrite str_contains_unfold, Hp.
  - change (String c s1 +:+ s2) with (String c (s1 +:+ s2)).
    rewrite str_contains_unfold, IH. apply orb_true_r.
Qed.

Lemma prefix_two a b rest : String.prefix (String a (String b "")) (String a (String b rest)) = true.
Proof.
  cbn. destruct (Ascii.ascii_dec a a); [|done].
  destruct (Ascii.ascii_dec b b); [|done]. by destruct rest.
Qed.

(** X14: the base price is 70 for every contract id that contains the
    letters c and l next to each other, in either case, whatever stands
    before and after them (the letters GC included). *)
Theorem crude_ids_get_base_price_70 before c l after :
  c = "c"%char ∨ c = "C"%char →
  l = "l"%char ∨ l = "L"%char →
  base_price_for_limit (before +:+ String c (String l after)) = 70.
Proof.
  intros Hc Hl. unfold base_price_for_limit.
  rewrite str_upper_app, str_contains_app; [reflexivity|].
  cbn [str_upper].
  assert (ascii_upper c = "C"%char) as -> by (destruct Hc as [-> | ->]; reflexivity).
  assert (ascii_upper l = "L"%char) as -> by (destruct Hl as [-> | ->]; reflexivity).
  apply prefix_two.
Qed.

(** ** The statements on the sample values *)

(** C1, counterexample: the tracked order 42 is terminal with status
    Filled; a later event for order 42 with the active status Working is
    not discarded: the callback returns normally, nothing is logged at
    warning or error level, and both the stored status and the details
    snapshot are replaced by the event's. *)
Lemma working_event_overwrites_filled_order :
  let g := sample_tracker 42 sample_filled true in
  let order_data := sample_event 42 sample_working in
  let r := handle_tracked_order_update sample_filled sample_cancelled sample_rejected
             sample_names g order_data in
  ∃ g',
    r.2 = inr g'
    ∧ quiet r.1 = true
    ∧ tracked_order_status_from_stream g = PyInt sample_filled
    ∧ tracked_order_status_from_stream g' = PyInt sample_working
    ∧ tracked_order_details_from_stream g' ≠ tracked_order_details_from_stream g.
Proof.
  cbv zeta. eexists. split; [vm_compute; reflexivity|].
  split; [vm_compute; reflexivity|]. split; [reflexivity|]. split; [reflexivity|].
  discriminate.
Qed.

Lemma later_event_overwrites_terminal_order_witness :
  ∃ l,
    handle_tracked_order_update sample_filled sample_cancelled sample_rejected sample_names
      (sample_tracker 42 sample_filled true) (sample_event 42 sample_working) =
      (l, inr {| tracked_order_id := Some 42;
                 tracked_order_status_from_stream :=
                   dict_get (sample_event 42 sample_working) "status";
                 tracked_order_details_from_stream := Some (sample_event 42 sample_working);
                 is_order_terminal := true |})
    ∧ quiet l = true.
Proof.
  apply (later_event_overwrites_terminal_order sample_filled sample_cancelled
           sample_rejected sample_names
           (sample_tracker 42 sample_filled true) (sample_event 42 sample_working));
    vm_compute; reflexivity.
Defined.

Lemma terminal_flag_set_iff_terminal_code_witness :
  for_tracked (sample_tracker 42 sample_working false) (sample_event 42 sample_filled) = true
  ∧ is_order_terminal
      (state_after sample_filled sample_cancelled sample_rejected sample_names
         (sample_tracker 42 sample_working false) (sample_event 42 sample_filled)) = true.
Proof.
  assert (H : for_tracked (sample_tracker 42 sample_working false)
                (sample_event 42 sample_filled) = true) by (vm_compute; reflexivity).
  split; [exact H|].
  destruct (terminal_flag_set_iff_terminal_code sample_filled sample_cancelled
              sample_rejected sample_names
              (sample_tracker 42 sample_working false) (sample_event 42 sample_filled) H)
    as (Hset & _).
  apply Hset. vm_compute; reflexivity.
Defined.

Lemma duplicate_terminal_event_idempotent_witness :
  ∃ l1 l2 g1,
    handle_tracked_order_update sample_filled sample_cancelled sample_rejected sample_names
      (sample_tracker 5 sample_working false) (sample_event 5 sample_filled) = (l1, inr g1)
    ∧ handle_tracked_order_update sample_filled sample_cancelled sample_rejected sample_names
        g1 (sample_event 5 sample_filled) = (l2, inr g1)
    ∧ is_order_terminal g1 = true
    ∧ quiet l2 = true.
Proof.
  apply (duplicate_terminal_event_idempotent sample_filled sample_cancelled
           sample_rejected sample_names
           (sample_tracker 5 sample_working false) (sample_event 5 sample_filled));
    vm_compute; reflexivity.
Defined.

Lemma untracked_event_is_ignored_witness :
  for_tracked (sample_tracker 42 sample_working false) (sample_event 43 sample_filled) = false
  ∧ state_after sample_filled sample_cancelled sample_rejected sample_names
      (sample_tracker 42 sample_working false) (sample_event 43 sample_filled)
    = sample_tracker 42 sample_working false.
Proof.
  assert (H : for_tracked (sample_tracker 42 sample_working false)
                (sample_event 43 sample_filled) = false) by (vm_compute; reflexivity).
  split; [exact H|].
  destruct (untracked_event_is_ignored sample_filled sample_cancelled
              sample_rejected sample_names
              (sample_tracker 42 sample_working false) (sample_event 43 sample_filled) H)
    as (_ & Hsame & _).
  exact Hsame.
Defined.

(** C5, counterexample: order 42 is tracked with an active status; the
    Working event handled one second later is a valid transition and is
    stored; the same event handled again a second after that, a valid
    transition too, leaves the module state exactly as it was.  The state
    after an update is the tracked id, the status, the payload and the
    flag: nothing in it tells when the update happened, so no last-updated
    timestamp is reflected. *)
Lemma redelivered_event_leaves_no_trace_of_time :
  let order_data := sample_event 42 sample_working in
  let w0 := sample_world (sample_tracker 42 0 false) 0
              [Tick 0 [order_data]; Tick 0 [order_data]] in
  let w1 := (block sample_filled sample_cancelled sample_rejected sample_names second w0).2 in
  let w2 := (block sample_filled sample_cancelled sample_rejected sample_names second w1).2 in
  globals w1 = sample_tracker 42 sample_working false
  ∧ monotonic w1 = 1 * second
  ∧ monotonic w2 = 2 * second
  ∧ length (logged w2) = (2 * length (logged w1))%nat
  ∧ globals w2 = globals w1.
Proof. cbv zeta. repeat split; vm_compute; reflexivity. Qed.

Lemma valid_transition_updates_status_and_details_witness :
  (handle_tracked_order_update sample_filled sample_cancelled sample_rejected sample_names
     (sample_tracker 42 sample_working false) (sample_event 42 sample_cancelled)).2 =
    inr {| tracked_order_id := Some 42;
           tracked_order_status_from_stream :=
             dict_get (sample_event 42 sample_cancelled) "status";
           tracked_order_details_from_stream := Some (sample_event 42 sample_cancelled);
           is_order_terminal :=
             in_terminal_list sample_filled sample_cancelled sample_rejected
               (dict_get (sample_event 42 sample_cancelled) "status") |}.
Proof.
  apply (valid_transition_updates_status_and_details sample_filled sample_cancelled
           sample_rejected sample_names
           (sample_tracker 42 sample_working false) (sample_event 42 sample_cancelled));
    vm_compute; reflexivity.
Defined.

Lemma terminal_flag_monotone_witness :
  is_order_terminal
    (deliver sample_filled sample_cancelled sample_rejected sample_names
       (sample_tracker 42 sample_filled true)
       [sample_event 42 sample_working; sample_event 42 sample_working]).2 = true.
Proof.
  apply (terminal_flag_monotone sample_filled sample_cancelled sample_rejected sample_names
           (sample_tracker 42 sample_filled true)
           [sample_event 42 sample_working; sample_event 42 sample_working]).
  reflexivity.
Defined.

Lemma unknown_status_is_stored_witness :
  ∃ l,
    handle_tracked_order_update sample_filled sample_cancelled sample_rejected sample_names
      (sample_tracker 42 sample_working false) (sample_event 42 99) =
      (l, inr {| tracked_order_id := Some 42;
                 tracked_order_status_from_stream := dict_get (sample_event 42 99) "status";
                 tracked_order_details_from_stream := Some (sample_event 42 99);
                 is_order_terminal := false |})
    ∧ quiet l = true
    ∧ LogRecord INFO (NewStatus (UnknownStatus (dict_get (sample_event 42 99) "status"))
                                (dict_get (sample_event 42 99) "status")) ∈ l.
Proof.
  apply (unknown_status_is_stored sample_filled sample_cancelled sample_rejected sample_names
           (sample_tracker 42 sample_working false) (sample_event 42 99));
    vm_compute; reflexivity.
Defined.

Lemma cancel_issued_iff_not_terminal_after_monitoring_witness :
  let run := run_order_lifecycle_example sample_filled sample_cancelled sample_rejected
               sample_names 31 (Some 7) true in
  cancel_requests (run (sample_world initial_tracker 0 sample_fill_while_monitoring)).2 = []
  ∧ cancel_requests (run (sample_world initial_tracker 0 sample_fill_after_monitoring)).2
    = [Some 7].
Proof.
  cbv zeta. split.
  - destruct (cancel_issued_iff_not_terminal_after_monitoring sample_filled sample_cancelled
                sample_rejected sample_names 31 7 true
                (sample_world initial_tracker 0 sample_fill_while_monitoring))
      as (w1 & c & Hmon & _ & _ & _ & Hflag & _ & _ & _ & Hreq);
      [lia|lia|reflexivity|reflexivity|].
    rewrite Hreq, <- Hflag.
    vm_compute in Hmon. injection Hmon as <-. reflexivity.
  - destruct (cancel_issued_iff_not_terminal_after_monitoring sample_filled sample_cancelled
                sample_rejected sample_names 31 7 true
                (sample_world initial_tracker 0 sample_fill_after_monitoring))
      as (w1 & c & Hmon & _ & _ & _ & Hflag & _ & _ & _ & Hreq);
      [lia|lia|reflexivity|reflexivity|].
    rewrite Hreq, <- Hflag.
    vm_compute in Hmon. injection Hmon as <-. reflexivity.
Defined.

(** C7, evaluated at the failing input: the cancel request for order 7
    succeeds and the Filled event for order 7 arrives during the last
    sleep of the confirmation loop.  The flag is set and the stored status
    is Filled, yet the only report on the confirmation wait is the
    time-out warning (carrying the terminal status): the loop condition
    fails before the flag is polled again, and the [else] clause runs. *)
Theorem late_fill_reported_as_confirmation_timeout :
  let w' := (run_order_lifecycle_example sample_filled sample_cancelled sample_rejected
               sample_names 31 (Some 7) true
               (sample_world initial_tracker 0 sample_fill_in_last_confirm_sleep)).2 in
  cancel_requests w' = [Some 7]
  ∧ is_order_terminal (globals w') = true
  ∧ tracked_order_status_from_stream (globals w') = PyInt sample_filled
  ∧ confirm_reports (logged w') =
      [LogRecord WARNING (CancelConfirmTimedOut (Some 7) "FILLED")].
Proof. cbv zeta. repeat split; vm_compute; reflexivity. Qed.

(** C8, counterexample: the cancel request for order 7 fails, and while it
    is in flight the stream delivers Filled and then a stale Working event
    for order 7.  The flag is found set, the order was observed in the
    terminal state Filled, and the report after the failed request names
    the status WORKING. *)
Lemma failed_cancel_reports_overwriting_status :
  let r := run_order_lifecycle_example sample_filled sample_cancelled sample_rejected
             sample_names 31 (Some 7) false
             (sample_world initial_tracker 0 sample_fill_then_working_while_cancelling) in
  r.1 = Returned ()
  ∧ cancel_requests r.2 = [Some 7]
  ∧ is_order_terminal (globals r.2) = true
  ∧ terminal_reports (logged r.2) =
      [ LogRecord INFO (ReachedTerminal (Some 7) (StatusName "FILLED"));
        LogRecord ERROR (CancelFailed (Some 7));
        LogRecord INFO (AlreadyTerminal (Some "WORKING"%string)) ].
Proof. cbv zeta. repeat split; vm_compute; reflexivity. Qed.

Lemma failed_cancel_reports_stored_status_witness :
  let r := run_order_lifecycle_example sample_filled sample_cancelled sample_rejected
             sample_names 31 (Some 7) false
             (sample_world initial_tracker 0 sample_fill_while_cancelling) in
  r.1 = Returned ()
  ∧ ∃ c l1 l2,
      c = sample_filled
      ∧ logged r.2 =
          l1 ++ [ LogRecord ERROR (CancelFailed (Some 7));
                  LogRecord INFO (AlreadyTerminal (sample_names !! c)) ]
             ++ LogRecord INFO FinalDetailsHeader :: l2.
Proof.
  cbv zeta.
  destruct (failed_cancel_reports_stored_status sample_filled sample_cancelled
              sample_rejected sample_names 31 7
              (sample_world initial_tracker 0 sample_fill_while_cancelling))
    as (_ & Hret & _ & Hterminal);
    [lia|lia|reflexivity|vm_compute; reflexivity|vm_compute; reflexivity|].
  split; [exact Hret|].
  destruct Hterminal as (c & l1 & l2 & _ & Hstored & Hlog); [vm_compute; reflexivity|].
  exists c, l1, l2. split; [|exact Hlog].
  vm_compute in Hstored. by injection Hstored as <-.
Defined.

(** ** The further properties on the sample values *)

Lemma callback_keeps_state_consistent_witness :
  consistent sample_filled sample_cancelled sample_rejected
    (deliver sample_filled sample_cancelled sample_rejected sample_names
       (sample_tracker 42 sample_working false)
       [sample_event 42 sample_filled; sample_event 42 sample_working]).2.
Proof.
  apply (callback_keeps_state_consistent sample_filled sample_cancelled sample_rejected
           sample_names (sample_tracker 42 sample_working false)
           [sample_event 42 sample_filled; sample_event 42 sample_working]).
  split; [reflexivity|]. split; [vm_compute; discriminate|].
  intros d [= <-]. vm_compute. reflexivity.
Defined.

Lemma unhashable_status_raises_before_any_change_witness :
  let bad := <["status"%string := PyList []]> (sample_event 42 sample_filled) in
  handle_tracked_order_update sample_filled sample_cancelled sample_rejected sample_names
    (sample_tracker 42 sample_working false) bad =
    ([LogRecord INFO (TrackedOrderUpdate (Some 42))], inl TypeError)
  ∧ (deliver sample_filled sample_cancelled sample_rejected sample_names
       (sample_tracker 42 sample_working false) [bad; sample_event 42 sample_filled]).2 =
    (deliver sample_filled sample_cancelled sample_rejected sample_names
       (sample_tracker 42 sample_working false) [sample_event 42 sample_filled]).2.
Proof.
  cbv zeta.
  apply (unhashable_status_raises_before_any_change sample_filled sample_cancelled
           sample_rejected sample_names (sample_tracker 42 sample_working false)
           (<["status"%string := PyList []]> (sample_event 42 sample_filled))
           [sample_event 42 sample_filled]);
    vm_compute; reflexivity.
Defined.

Lemma event_without_id_is_taken_for_the_untracked_order_witness :
  (deliver sample_filled sample_cancelled sample_rejected sample_names initial_tracker
     ([sample_event 9 sample_filled] ++ [{[ "status"%string := PyInt sample_filled ]}])).2 =
    {| tracked_order_id := None;
       tracked_order_status_from_stream :=
         dict_get {[ "status"%string := PyInt sample_filled ]} "status";
       tracked_order_details_from_stream := Some {[ "status"%string := PyInt sample_filled ]};
       is_order_terminal := true |}.
Proof.
  apply (event_without_id_is_taken_for_the_untracked_order sample_filled sample_cancelled
           sample_rejected sample_names
           [sample_event 9 sample_filled] {[ "status"%string := PyInt sample_filled ]}).
  - constructor; [|constructor]. exists (PyInt 9). split; [vm_compute; reflexivity|discriminate].
  - vm_compute. reflexivity.
  - vm_compute. reflexivity.
Defined.

Lemma stale_flag_skips_monitoring_and_cancel_witness :
  ∃ l,
    run_order_lifecycle_example sample_filled sample_cancelled sample_rejected sample_names
      1 (Some 7) true
      (sample_world (sample_tracker 3 sample_filled true) 0 sample_fill_while_monitoring) =
      (Returned (),
       {| globals :=
            globals (set_tracked_order_id (Some 7)
                       (sample_world (sample_tracker 3 sample_filled true) 0
                          sample_fill_while_monitoring)).2;
          monotonic := 0;
          schedule := sample_fill_while_monitoring;
          logged := [] ++ LogRecord INFO (OrderPlaced (Some 7))
                          :: LogRecord INFO (TerminalBeforeCancel (Some 7)) :: l;
          cancel_requests := [] |}).
Proof.
  apply (stale_flag_skips_monitoring_and_cancel sample_filled sample_cancelled
           sample_rejected sample_names 1 7 true
           (sample_world (sample_tracker 3 sample_filled true) 0
              sample_fill_while_monitoring));
    [lia|lia|reflexivity].
Defined.

Lemma session_body_never_raises_witness :
  ∃ w',
    lifecycle sample_filled sample_cancelled sample_rejected sample_names
      31 (Some 7) false (sample_world initial_tracker 0 sample_fill_while_cancelling)
    = (Returned (), w').
Proof.
  destruct (session_body_never_raises sample_filled sample_cancelled sample_rejected
              sample_names 31 (Some 7) false
              (sample_world initial_tracker 0 sample_fill_while_cancelling))
    as (w' & Hlife & _); [lia|reflexivity|].
  by exists w'.
Defined.

Lemma session_writes_tracked_id_only_witness :
  ∃ consumed,
    sample_fill_while_cancelling =
      consumed
      ++ schedule (run_order_lifecycle_example sample_filled sample_cancelled
                     sample_rejected sample_names 31 (Some 7) false
                     (sample_world initial_tracker 0 sample_fill_while_cancelling)).2
    ∧ tracked_order_id
        (globals (run_order_lifecycle_example sample_filled sample_cancelled
                    sample_rejected sample_names 31 (Some 7) false
                    (sample_world initial_tracker 0 sample_fill_while_cancelling)).2)
      = Some 7.
Proof.
  destruct (session_writes_tracked_id_only sample_filled sample_cancelled sample_rejected
              sample_names 31 7 false
              (sample_world initial_tracker 0 sample_fill_while_cancelling))
    as (c & Hs & _ & Hid & _); [lia|lia|reflexivity|].
  exists c. by split.
Defined.

Lemma session_blocks_at_most_51_times_witness :
  ∃ consumed,
    sample_quiet 60 =
      consumed
      ++ schedule (run_order_lifecycle_example sample_filled sample_cancelled
                     sample_rejected sample_names 31 (Some 7) true
                     (sample_world initial_tracker 0 (sample_quiet 60))).2
    ∧ (length consumed ≤ 51)%nat.
Proof.
  apply (session_blocks_at_most_51_times sample_filled sample_cancelled sample_rejected
           sample_names 31 7 true (sample_world initial_tracker 0 (sample_quiet 60)));
    [lia|lia|reflexivity].
Defined.

Lemma silent_stream_ends_in_confirmation_timeout_witness :
  let r := run_order_lifecycle_example sample_filled sample_cancelled sample_rejected
             sample_names 31 (Some 7) true
             (sample_world initial_tracker 0 [Tick 3 [sample_event 8 sample_filled]]) in
  r.1 = Returned ()
  ∧ cancel_requests r.2 = [] ++ [Some 7]
  ∧ 35 * second ≤ monotonic r.2 - 0.
Proof.
  cbv zeta.
  destruct (silent_stream_ends_in_confirmation_timeout sample_filled sample_cancelled
              sample_rejected sample_names 31 7
              (sample_world initial_tracker 0 [Tick 3 [sample_event 8 sample_filled]]))
    as (Hret & Hreq & _ & Htime & _);
    [lia|lia|reflexivity|reflexivity|vm_compute; reflexivity|].
  by repeat split.
Defined.

Lemma falsy_order_id_is_a_failed_placement_witness :
  run_order_lifecycle_example sample_filled sample_cancelled sample_rejected sample_names
    0 (Some 0) true (sample_world initial_tracker 0 sample_fill_while_monitoring) =
    (Returned (),
     {| globals := initial_tracker; monotonic := 0;
        schedule := sample_fill_while_monitoring;
        logged := [] ++ [ LogRecord ERROR PlaceFailed;
                          LogRecord INFO StoppingStream;
                          LogRecord INFO ExampleFinished ];
        cancel_requests := [] |}).
Proof.
  apply (falsy_order_id_is_a_failed_placement sample_filled sample_cancelled
           sample_rejected sample_names 0 (Some 0) true
           (sample_world initial_tracker 0 sample_fill_while_monitoring)).
  by right.
Defined.

Lemma interrupt_after_cancel_request_cancels_again_witness :
  let w := sample_world (sample_tracker 7 sample_working false) 0 [] in
  let w' := (cancel_order sample_filled sample_cancelled sample_rejected sample_names
               true (Some 7) w).2 in
  cancel_requests
    (on_keyboard_interrupt sample_filled sample_cancelled sample_rejected sample_names
       true false w').2 = [Some 7; Some 7].
Proof.
  cbv zeta.
  rewrite (interrupt_after_cancel_request_cancels_again sample_filled sample_cancelled
             sample_rejected sample_names 7 false
             (sample_world (sample_tracker 7 sample_working false) 0 [])
             (cancel_order sample_filled sample_cancelled sample_rejected sample_names
                true (Some 7)
                (sample_world (sample_tracker 7 sample_working false) 0 [])).2 []);
    [reflexivity|lia|reflexivity|by repeat split].
Defined.

Lemma crude_ids_get_base_price_70_witness :
  base_price_for_limit ("CON.F.US.gc-" +:+ String "c" (String "L" "E.Z5")) = 70.
Proof.
  apply (crude_ids_get_base_price_70 "CON.F.US.gc-" "c" "L" "E.Z5"); [by left|by right].
Defined.

Lemma monitoring_ends_at_first_poll_after_terminal_event_witness :
  ∃ w',
    monitor_loop sample_filled sample_cancelled sample_rejected sample_names 31 0
      (sample_world (sample_tracker 7 sample_working false) 0
         (sample_quiet 2 ++ sample_fill :: sample_quiet 3)) = (Returned (), w')
    ∧ schedule w' = sample_quiet 3
    ∧ is_order_terminal (globals w') = true.
Proof.
  destruct (monitoring_ends_at_first_poll_after_terminal_event sample_filled
              sample_cancelled sample_rejected sample_names
              (sample_quiet 2) 31 0
              (sample_world (sample_tracker 7 sample_working false) 0
                 (sample_quiet 2 ++ sample_fill :: sample_quiet 3))
              sample_fill (sample_quiet 3))
    as (w' & Hrun & Hs & Hterm & _);
    [reflexivity|cbn; lia|reflexivity|reflexivity
    |vm_compute; reflexivity|vm_compute; reflexivity|vm_compute; reflexivity|].
  exists w'. by repeat split.
Defined.

Lemma stream_thread_logs_no_problem_witness :
  emitted false
    (deliver sample_filled sample_cancelled sample_rejected sample_names
       (sample_tracker 42 sample_working false)
       [sample_event 43 sample_filled; sample_event 44 sample_working]).1 = [].
Proof.
  apply (stream_thread_logs_no_problem sample_filled sample_cancelled sample_rejected
           sample_names (sample_tracker 42 sample_working false)
           [sample_event 43 sample_filled; sample_event 44 sample_working]).
  vm_compute. reflexivity.
Defined.
